(** * scqubits.core.storage: DataStore and SpectrumData

    A shallow embedding of [scqubits/core/storage.py].  A Python object is
    its class together with its instance dictionary ([__dict__]), an
    insertion-ordered mapping from attribute names to values; [setattr]
    writes into that dictionary under any ordinary name, [data_names] and
    the names of the methods included, and does what Python does under
    the three special names [__dict__], [__class__] and [__weakref__].  A
    method takes the instance as an explicit state and either returns or
    raises, the state reached so far being kept in both cases.  A method
    called through [self] is looked up on the instance first: the model
    has no callable value, so an instance attribute of the method's name
    makes the call raise. *)

From Stdlib Require Import List String ZArith Lia Bool.
Import ListNotations.

Set Warnings "-register-all".
Open Scope string_scope.
Open Scope list_scope.

(** ** Python values *)

(** The values the storage classes handle.  A number is an integer; a
    Python sequence and the ndarray holding the same entries are one [VArr]
    (a two-dimensional array is a [VArr] of rows); [VKeys] is the key view
    returned by [dict.keys()]. *)
Inductive value : Type :=
| VNone
| VNum (z : Z)
| VStr (s : string)
| VArr (l : list value)
| VDict (d : list (string * value))
| VKeys (ks : list string).

(** A [dict] with string keys, in insertion order; keys are unique. *)
Definition dict : Type := list (string * value).

Definition keys (d : dict) : list string := map fst d.
Definition values (d : dict) : list value := map snd d.

Inductive exn : Type :=
| KeyError (k : string)
| AttributeError (k : string)
| IndexError
| TypeError
| ValueError
| IOError
| Unsupported.   (* an input whose behaviour this model does not describe *)

Inductive result (A : Type) : Type :=
| Ok (a : A)
| Raise (e : exn).

Arguments Ok {A} a.
Arguments Raise {A} e.

Definition rbind {A B} (r : result A) (k : A -> result B) : result B :=
  match r with
  | Ok a => k a
  | Raise e => Raise e
  end.

(** ** State and exceptions

    [Eff S A] is a computation on a mutable object of type [S]: it yields
    the object as the computation leaves it, and a value or an exception.
    An exception stops the computation and keeps the writes made before. *)
Definition Eff (S A : Type) : Type := S -> S * result A.

Definition ret {S A} (a : A) : Eff S A := fun s => (s, Ok a).

Definition bind {S A B} (c : Eff S A) (k : A -> Eff S B) : Eff S B :=
  fun s =>
    match c s with
    | (s', Ok a) => k a s'
    | (s', Raise e) => (s', Raise e)
    end.

Definition lift {S A} (r : result A) : Eff S A := fun s => (s, r).

Definition modify {S} (f : S -> S) : Eff S unit := fun s => (f s, Ok tt).

Declare Scope eff_scope.
Delimit Scope eff_scope with eff.
Notation "x <- c ;; k" := (bind c (fun x => k))
  (at level 61, c at next level, right associativity) : eff_scope.
Notation "c ;; k" := (bind c (fun _ => k))
  (at level 61, right associativity) : eff_scope.

(** [for x in xs: body x] *)
Fixpoint for_each {S A} (xs : list A) (body : A -> Eff S unit) : Eff S unit :=
  match xs with
  | [] => ret tt
  | x :: rest => bind (body x) (fun _ => for_each rest body)
  end.

(** [enumerate(xs)] *)
Fixpoint enumerate_from {A} (i : nat) (xs : list A) : list (nat * A) :=
  match xs with
  | [] => []
  | x :: rest => (i, x) :: enumerate_from (S i) rest
  end.

Definition enumerate {A} (xs : list A) : list (nat * A) := enumerate_from 0 xs.

(** ** Dictionaries *)

Fixpoint dict_get (k : string) (d : dict) : option value :=
  match d with
  | [] => None
  | (k', v) :: rest => if String.eqb k k' then Some v else dict_get k rest
  end.

(** [d[k] = v]: an existing key keeps its place, a new one goes last. *)
Fixpoint dict_set (k : string) (v : value) (d : dict) : dict :=
  match d with
  | [] => [(k, v)]
  | (k', v') :: rest =>
      if String.eqb k k' then (k', v) :: rest else (k', v') :: dict_set k v rest
  end.

Fixpoint dict_remove (k : string) (d : dict) : dict :=
  match d with
  | [] => []
  | (k', v') :: rest =>
      if String.eqb k k' then rest else (k', v') :: dict_remove k rest
  end.

(** [d.pop(k)]: the value and the dictionary without the key. *)
Definition dict_pop (k : string) (d : dict) : result (value * dict) :=
  match dict_get k d with
  | Some v => Ok (v, dict_remove k d)
  | None => Raise (KeyError k)
  end.

(** [d.update(extra)] *)
Definition dict_update (d extra : dict) : dict :=
  fold_left (fun acc kv => dict_set (fst kv) (snd kv) acc) extra d.

Definition mem (k : string) (ks : list string) : bool :=
  existsb (String.eqb k) ks.

(** [xs[i]] for a list and a non-negative index. *)
Definition list_index {A} (xs : list A) (i : nat) : result A :=
  match nth_error xs i with
  | Some x => Ok x
  | None => Raise IndexError
  end.

(** ** Python built-ins used by the storage classes *)

Definition is_none (v : value) : bool :=
  match v with
  | VNone => true
  | _ => false
  end.

(** [sub in s] for strings. *)
Fixpoint substring_of (sub s : string) : bool :=
  String.prefix sub s ||
  match s with
  | EmptyString => false
  | String _ rest => substring_of sub rest
  end.

(** [key in container] for a string key: membership in a key view, a
    dictionary or a sequence, a substring test in a string, a [TypeError]
    in a value that is no container. *)
Definition py_contains (key : string) (container : value) : result bool :=
  match container with
  | VKeys ks => Ok (mem key ks)
  | VDict d => Ok (mem key (keys d))
  | VArr l =>
      Ok (existsb (fun x => match x with
                            | VStr s => String.eqb key s
                            | _ => false
                            end) l)
  | VStr s => Ok (substring_of key s)
  | VNone | VNum _ => Raise TypeError
  end.

(** [len(v)] *)
Definition py_len (v : value) : result Z :=
  match v with
  | VArr l => Ok (Z.of_nat (List.length l))
  | VDict d => Ok (Z.of_nat (List.length d))
  | VKeys ks => Ok (Z.of_nat (List.length ks))
  | VStr s => Ok (Z.of_nat (String.length s))
  | VNone | VNum _ => Raise TypeError
  end.

(** ** Objects *)

Inductive class : Type :=
| DataStore_class
| SpectrumData_class.

Record obj : Type := mkObj {
  ob_class : class;
  __dict__ : dict
}.

(** [o.name] for an instance attribute: the entry of the instance
    dictionary, which is what the attribute access gives for a name that
    is neither special nor defined by the class. *)
Definition getattr (name : string) (o : obj) : result value :=
  match dict_get name (__dict__ o) with
  | Some v => Ok v
  | None => Raise (AttributeError name)
  end.

(** The names [object] and the class bind to data descriptors on every
    instance. *)
Definition special_names : list string :=
  ["__dict__"; "__class__"; "__weakref__"].

(** [setattr(self, name, v)], also written [self.name = v].  An ordinary
    name is written into the instance dictionary.  [__class__] accepts a
    class only, and no value of the model is one; [__weakref__] is not
    writable; [__dict__] accepts a dictionary only, which then is the
    instance dictionary. *)
Definition setattr (name : string) (v : value) : Eff obj unit :=
  fun self =>
    if String.eqb name "__class__" then (self, Raise TypeError)
    else if String.eqb name "__weakref__"
    then (self, Raise (AttributeError "__weakref__"))
    else if String.eqb name "__dict__" then
      match v with
      | VDict d => (mkObj (ob_class self) d, Ok tt)
      | _ => (self, Raise TypeError)
      end
    else (mkObj (ob_class self) (dict_set name v (__dict__ self)), Ok tt).

(** [self.name()] for a method [name] of the class.  The instance
    dictionary is searched before the class: an instance attribute of
    that name is what gets called, and it is no callable. *)
Definition call_method {A} (self : obj) (name : string)
    (method : obj -> result A) : result A :=
  match dict_get name (__dict__ self) with
  | Some _ => Raise TypeError
  | None => method self
  end.

(** [self.name] inside a method. *)
Definition attr (name : string) : Eff obj value :=
  fun self => (self, getattr name self).

(** ** Collaborators outside [storage.py] *)

(** The three helpers imported from [scqubits.utils.misc].  Their code is
    not part of the verified file: the development is parametric in them,
    and a theorem that needs more than their signature states the part of
    their contract it uses. *)
Class Misc : Type := {
  (** the normalized, flat form of a [system_params] mapping *)
  process_metadata : dict -> dict;
  (** whether the value of a [(name, value)] pair is not [None] *)
  value_not_none : string * value -> bool;
  (** the dense array form of a data field *)
  convert_to_ndarray : value -> value
}.

(** Modelled from the spec: the abstract writer of [scqubits.utils.file_io],
    which persists a single metadata record ([create_meta]) and one named
    array per call of [add_dataset], and its reader, which gives back the
    metadata mapping, the ordered list of names and the ordered list of
    arrays, [names[i]] going with [arrays[i]]. *)
Record Writer : Type := mkWriter {
  w_meta : option dict;
  w_datasets : list (string * value)
}.

Definition new_writer : Writer := mkWriter None [].

Definition create_meta (metadata_dict : dict) : Eff Writer unit :=
  modify (fun w => mkWriter (Some metadata_dict) (w_datasets w)).

Definition add_dataset (name : string) (array : value) : Eff Writer unit :=
  modify (fun w => mkWriter (w_meta w) (w_datasets w ++ [(name, array)])).

Definition read (w : Writer) : result (dict * list string * list value) :=
  match w_meta w with
  | Some m => Ok (m, map fst (w_datasets w), map snd (w_datasets w))
  | None => Raise IOError
  end.

(** ** class DataStore *)

Module DataStore.

(** [__init__(self, param_name, param_vals, system_params, **kwargs)], run
    on the fresh instance. *)
Definition __init__ (param_name param_vals system_params : value)
    (kwargs : dict) : Eff obj unit :=
  (setattr "param_name" param_name ;;
   setattr "param_vals" param_vals ;;
   setattr "system_params" system_params ;;
   setattr "data_names" (VKeys (keys kwargs)) ;;
   for_each kwargs (fun kv => setattr (fst kv) (snd kv)))%eff.

Definition param_count (self : obj) : result Z :=
  rbind (getattr "param_vals" self) py_len.

(** [{key: value for key, value in self.__dict__.items()
      if key in self.data_names}] *)
Fixpoint data_dict_from (self : obj) (items : dict) (acc : dict)
    : result dict :=
  match items with
  | [] => Ok acc
  | (key, value) :: rest =>
      rbind (getattr "data_names" self) (fun data_names =>
      rbind (py_contains key data_names) (fun selected =>
      data_dict_from self rest
        (if selected then dict_set key value acc else acc)))
  end.

Definition _get_data_dict (self : obj) : result dict :=
  data_dict_from self (__dict__ self) [].

Section WithMisc.
Context `{Misc}.

(** [process_metadata] goes through the items of its argument: the call
    raises on a [system_params] that is no mapping. *)
Definition _get_metadata_dict (self : obj) : result dict :=
  rbind (getattr "param_name" self) (fun param_name =>
  rbind (getattr "param_vals" self) (fun param_vals =>
  let meta_dict := [("param_name", param_name); ("param_vals", param_vals)] in
  rbind (getattr "system_params" self) (fun system_params =>
  match system_params with
  | VDict d => Ok (dict_update meta_dict (process_metadata d))
  | _ => Raise (AttributeError "items")
  end))).

Definition _serialize (self : obj) : Eff Writer unit :=
  (metadata_dict <-
     lift (call_method self "_get_metadata_dict" _get_metadata_dict) ;;
   create_meta metadata_dict ;;
   data_dict <- lift (call_method self "_get_data_dict" _get_data_dict) ;;
   for_each (filter value_not_none data_dict)
     (fun item => add_dataset (fst item) (convert_to_ndarray (snd item))))%eff.

End WithMisc.

(** [set_from_data(self, metadata_dict, name_list, data_list)].  The two
    [pop]s remove the keys from the caller's dictionary, which then becomes
    [self.system_params]. *)
Definition set_from_data (metadata_dict : dict) (name_list : list string)
    (data_list : list value) : Eff obj unit :=
  (p <- lift (dict_pop "param_name" metadata_dict) ;;
   setattr "param_name" (fst p) ;;
   q <- lift (dict_pop "param_vals" (snd p)) ;;
   setattr "param_vals" (fst q) ;;
   setattr "system_params" (VDict (snd q)) ;;
   for_each (enumerate name_list)
     (fun ia => x <- lift (list_index data_list (fst ia)) ;;
                setattr (snd ia) x))%eff.

End DataStore.

(** ** NumPy operations used by [subtract_ground]

    A two-dimensional integer array of shape (n, m) is the list of its n
    rows, each of the same length m.  Its entries are 64-bit signed
    integers, the type NumPy gives an array of Python integers, and
    arithmetic on them wraps around. *)

Definition int64 (z : Z) : bool := ((- 2 ^ 63 <=? z) && (z <? 2 ^ 63))%Z.

Definition wrap64 (z : Z) : Z := ((z + 2 ^ 63) mod 2 ^ 64 - 2 ^ 63)%Z.

Fixpoint numbers (l : list value) : option (list Z) :=
  match l with
  | [] => Some []
  | VNum z :: rest => option_map (cons z) (numbers rest)
  | _ => None
  end.

Fixpoint rows_of (l : list value) : option (list (list Z)) :=
  match l with
  | [] => Some []
  | VArr r :: rest =>
      match numbers r, rows_of rest with
      | Some r', Some rest' => Some (r' :: rest')
      | _, _ => None
      end
  | _ => None
  end.

Definition uniform (rows : list (list Z)) : bool :=
  match rows with
  | [] => true
  | r :: rest => forallb (fun r' => Nat.eqb (List.length r') (List.length r)) rest
  end.

Definition np_value (rows : list (list Z)) : value :=
  VArr (map (fun r => VArr (map VNum r)) rows).

(** The rows of the array, for the indexing [a[:, 0]] to come: an array of
    one dimension has too many indices, a value that is no array cannot be
    indexed by a pair; arrays of more than two dimensions are outside the
    model. *)
Definition np_matrix (a : value) : result (list (list Z)) :=
  match a with
  | VArr [] => Raise IndexError
  | VArr (VArr r :: rest) =>
      match rows_of (VArr r :: rest) with
      | Some rows => if uniform rows then Ok rows else Raise Unsupported
      | None => Raise Unsupported
      end
  | VArr _ => Raise IndexError
  | _ => Raise TypeError
  end.

(** [a[:, 0]]: the first entry of every row, of shape (n,). *)
Fixpoint np_column0 (rows : list (list Z)) : result (list Z) :=
  match rows with
  | [] => Ok []
  | [] :: _ => Raise IndexError
  | (x :: _) :: rest => rbind (np_column0 rest) (fun c => Ok (x :: c))
  end.

Fixpoint sub_rows (r b : list Z) : list Z :=
  match r, b with
  | x :: r', y :: b' => wrap64 (x - y) :: sub_rows r' b'
  | _, _ => []
  end.

(** The result of an operation on 64-bit arrays; an array with an entry
    beyond 64 bits has another type, which the model does not describe. *)
Definition on_int64 (a : list (list Z)) (b : list Z)
    (r : list (list Z)) : result (list (list Z)) :=
  if forallb (forallb int64) a && forallb int64 b then Ok r
  else Raise Unsupported.

(** [a -= b] for [a] of shape (n, m) and [b] of shape (k,).  NumPy
    broadcasts [b] along the last axis of [a]: [b] is subtracted from every
    row when k = m, its single entry from every entry when k = 1, and the
    shapes do not broadcast otherwise, whatever the entries.  The
    right-hand side is read before [a] is written. *)
Definition np_isub (a : list (list Z)) (b : list Z) : result (list (list Z)) :=
  let m := match a with
           | [] => 0
           | r :: _ => List.length r
           end in
  if Nat.eqb (List.length b) m
  then on_int64 a b (map (fun r => sub_rows r b) a)
  else match b with
       | [y] => on_int64 a b (map (map (fun x => wrap64 (x - y))) a)
       | _ => Raise ValueError
       end.

(** ** class SpectrumData(DataStore) *)

Module SpectrumData.

(** [__init__(self, param_name, param_vals, energy_table, system_params,
              state_table=None, matrixelem_table=None)] *)
Definition __init__ (param_name param_vals energy_table system_params
    state_table matrixelem_table : value) : Eff obj unit :=
  (DataStore.__init__ param_name param_vals system_params [] ;;
   setattr "energy_table" energy_table ;;
   setattr "state_table" state_table ;;
   setattr "matrixelem_table" matrixelem_table)%eff.

(** [self.energy_table -= self.energy_table[:, 0]] *)
Definition subtract_ground : Eff obj unit :=
  (energy_table <- attr "energy_table" ;;
   a <- lift (np_matrix energy_table) ;;
   ground <- lift (np_column0 a) ;;
   a' <- lift (np_isub a ground) ;;
   setattr "energy_table" (np_value a'))%eff.

End SpectrumData.

(** ** Creating instances *)

(** A call [f(k1=v1, ..., **starred)]: a key given twice is a [TypeError]. *)
Definition merge_keywords (named starred : dict) : result dict :=
  if existsb (fun k => mem k (keys named)) (keys starred)
  then Raise TypeError
  else Ok (named ++ starred).

(** A required parameter, bound from the keywords of the call. *)
Definition required (k : string) (kw : dict) : result (value * dict) :=
  match dict_get k kw with
  | Some v => Ok (v, dict_remove k kw)
  | None => Raise TypeError
  end.

(** A parameter with a default value. *)
Definition optional (k : string) (default : value) (kw : dict) : value * dict :=
  match dict_get k kw with
  | Some v => (v, dict_remove k kw)
  | None => (default, kw)
  end.

(** The object [__init__] leaves, when it returns. *)
Definition initialized (cls : class) (init : Eff obj unit) : result obj :=
  match init (mkObj cls []) with
  | (self, Ok _) => Ok self
  | (_, Raise e) => Raise e
  end.

(** [cls] called with the keywords [kw]: they are bound to the parameters of the class's
    [__init__]; [DataStore] collects the remaining ones in [kwargs],
    [SpectrumData] accepts no other. *)
Definition instantiate (cls : class) (kw : dict) : result obj :=
  if mem "self" (keys kw) then Raise TypeError else
  match cls with
  | DataStore_class =>
      rbind (required "param_name" kw) (fun a =>
      rbind (required "param_vals" (snd a)) (fun b =>
      rbind (required "system_params" (snd b)) (fun c =>
      initialized cls (DataStore.__init__ (fst a) (fst b) (fst c) (snd c)))))
  | SpectrumData_class =>
      rbind (required "param_name" kw) (fun a =>
      rbind (required "param_vals" (snd a)) (fun b =>
      rbind (required "energy_table" (snd b)) (fun c =>
      rbind (required "system_params" (snd c)) (fun d =>
      let e := optional "state_table" VNone (snd d) in
      let f := optional "matrixelem_table" VNone (snd e) in
      match snd f with
      | [] => initialized cls
                (SpectrumData.__init__ (fst a) (fst b) (fst c) (fst d)
                   (fst e) (fst f))
      | _ :: _ => Raise TypeError
      end))))
  end.

(** [{name: data_list[i] for i, name in enumerate(name_list)}] *)
Fixpoint data_dict_of (items : list (nat * string)) (data_list : list value)
    (acc : dict) : result dict :=
  match items with
  | [] => Ok acc
  | (i, name) :: rest =>
      rbind (list_index data_list i) (fun x =>
      data_dict_of rest data_list (dict_set name x acc))
  end.

(** The class method [DataStore._init_from_data(cls, metadata_dict,
    name_list, data_list)], inherited by [SpectrumData]; it stands here
    because it builds an instance of either class. *)
Definition _init_from_data (cls : class) (metadata_dict : dict)
    (name_list : list string) (data_list : list value) : result obj :=
  rbind (dict_pop "param_name" metadata_dict) (fun p =>
  let param_name := fst p in
  rbind (dict_pop "param_vals" (snd p)) (fun q =>
  let param_vals := fst q in
  let system_params := VDict (snd q) in
  rbind (data_dict_of (enumerate name_list) data_list []) (fun data_dict =>
  rbind (merge_keywords [("param_name", param_name);
                         ("param_vals", param_vals);
                         ("system_params", system_params)] data_dict)
        (instantiate cls)))).

(** ** A model of the helpers *)

(** Modelled from the spec: [scqubits.utils.misc.process_metadata].  Every
    value of the mapping is inspected; a value that is itself a mapping is
    flattened recursively and merged, a later key overwriting an equal
    earlier one; any other value of this model is representable and kept. *)
Definition flatten_items (flatten : value -> dict)
    : list (string * value) -> dict -> dict :=
  fix go (items : list (string * value)) (acc : dict) : dict :=
    match items with
    | [] => acc
    | (k, x) :: rest =>
        go rest (match x with
                 | VDict _ => dict_update acc (flatten x)
                 | _ => dict_set k x acc
                 end)
    end.

Fixpoint flatten_value (v : value) : dict :=
  match v with
  | VDict d => flatten_items flatten_value d []
  | _ => []
  end.

(** Modelled from the spec: the three helpers of [scqubits.utils.misc] as
    section 4.2 describes them: nested mappings flattened, the absent
    sentinel [None] filtered out, a data field converted to its dense
    array, which in this model of values is the value itself. *)
Definition misc_model : Misc := {|
  process_metadata := fun d => flatten_value (VDict d);
  value_not_none := fun kv => negb (is_none (snd kv));
  convert_to_ndarray := fun v => v
|}.

(** [DataStore(param_name, param_vals, system_params, **kwargs)], the
    direct construction of a store with extra named fields. *)
Definition new_DataStore (param_name param_vals system_params : value)
    (kwargs : dict) : result obj :=
  rbind (merge_keywords [("param_name", param_name);
                         ("param_vals", param_vals);
                         ("system_params", system_params)] kwargs)
        (instantiate DataStore_class).

(** The names Python binds to the parameters of [DataStore.__init__]:
    they never reach [kwargs]. *)
Definition parameter_names : list string :=
  ["self"; "param_name"; "param_vals"; "system_params"].

(** ** The contract of the helpers *)

(** A scalar value of a flat [system_params] mapping. *)
Definition scalar (v : value) : bool :=
  match v with
  | VNum _ | VStr _ => true
  | _ => false
  end.

(** A mapping without nested mappings, every value a scalar. *)
Definition flat (d : dict) : bool := forallb (fun kv => scalar (snd kv)) d.

(** The shape of a uniformly-shaped numeric array: [[]] for a number,
    [n :: s] for a sequence of [n] arrays of shape [s]. *)
Fixpoint shape (v : value) : option (list nat) :=
  match v with
  | VNum _ => Some []
  | VArr l =>
      match l with
      | [] => Some [0]
      | x :: rest =>
          match shape x with
          | Some s =>
              if forallb (fun y => match shape y with
                                   | Some s' =>
                                       if list_eq_dec Nat.eq_dec s' s
                                       then true else false
                                   | None => false
                                   end) rest
              then Some (S (List.length rest) :: s)
              else None
          | None => None
          end
      end
  | _ => None
  end.

(** Modelled from the spec: what sections 4.2 and 8 say of the helpers of
    [scqubits.utils.misc] on the inputs of the round trip.  A flat mapping
    of scalars is its own normalized form; the filter of the data
    dictionary rejects exactly the absent sentinel; a uniformly-shaped
    numeric field is its own dense array. *)
Record misc_contract `{Misc} : Prop := {
  process_metadata_flat :
    forall d, NoDup (keys d) -> flat d = true -> process_metadata d = d;
  value_not_none_spec :
    forall k v, value_not_none (k, v) = negb (is_none v);
  convert_to_ndarray_numeric :
    forall v s, shape v = Some s -> convert_to_ndarray v = v
}.

(** ** Reading [data_names] *)

(** The names a data field cannot bear without changing what the store
    does: [data_names], which the store reads; the two methods that
    [_serialize] calls through [self]; the special names. *)
Definition store_names : list string :=
  "data_names" :: "_get_metadata_dict" :: "_get_data_dict" :: special_names.

(** No instance attribute bears the name of a method that [_serialize]
    calls through [self]. *)
Definition methods_unshadowed (self : obj) : Prop :=
  dict_get "_get_metadata_dict" (__dict__ self) = None /\
  dict_get "_get_data_dict" (__dict__ self) = None.

(** The values [key in v] accepts on its right-hand side. *)
Definition is_container (v : value) : bool :=
  match v with
  | VNone | VNum _ => false
  | _ => true
  end.

(** Whether [k in data_names] holds. *)
Definition named_in (data_names : value) (k : string) : bool :=
  match py_contains k data_names with
  | Ok b => b
  | Raise _ => false
  end.

(** The datasets [_serialize] hands to the writer for a store whose
    [data_names] is [data_names]: the attributes named in it that the
    filter lets through, each converted, in attribute order. *)
Definition written_datasets `{Misc} (self : obj) (data_names : value)
    : list (string * value) :=
  map (fun item => (fst item, convert_to_ndarray (snd item)))
    (filter value_not_none
       (filter (fun kv => named_in data_names (fst kv)) (__dict__ self))).

(** ** Sample objects *)

Definition example_table : value :=
  VArr [VArr [VNum 1; VNum 2; VNum 3]; VArr [VNum 4; VNum 5; VNum 6]].

Definition square_table : value :=
  VArr [VArr [VNum 1; VNum 2]; VArr [VNum 4; VNum 6]].

Definition example_params : dict := [("EJ", VNum 30); ("EC", VNum 1)].

(** [SpectrumData('flux', [0, 1], energy_table, {'EJ': 30, 'EC': 1})] *)
Definition example_spectrum (energy_table : value) : obj :=
  mkObj SpectrumData_class
    [("param_name", VStr "flux"); ("param_vals", VArr [VNum 0; VNum 1]);
     ("system_params", VDict example_params); ("data_names", VKeys []);
     ("energy_table", energy_table); ("state_table", VNone);
     ("matrixelem_table", VNone)].

(** [DataStore('flux', [0, 1], {'EJ': 30, 'EC': 1}, a=energy_table, b=None)] *)
Definition example_store : obj :=
  mkObj DataStore_class
    [("param_name", VStr "flux"); ("param_vals", VArr [VNum 0; VNum 1]);
     ("system_params", VDict example_params);
     ("data_names", VKeys ["a"; "b"]);
     ("a", example_table); ("b", VNone)].

(** The metadata record of a file written for the parameter [ng]. *)
Definition example_metadata : dict :=
  [("param_name", VStr "ng"); ("param_vals", VArr [VNum 0; VNum 1; VNum 2]);
   ("EJ", VNum 30)].

(** * Properties *)

(** Closes [~ In k l] and [NoDup l] on lists of string literals, possibly
    ending in a list that a hypothesis speaks of. *)
Ltac notin_literal :=
  simpl; intros Hin;
  repeat (destruct Hin as [Hin|Hin]; try discriminate);
  try exact Hin.

Ltac nodup_literal := simpl; repeat constructor; notin_literal.

(** ** Dictionaries *)

Lemma mem_In (k : string) (ks : list string) : mem k ks = true <-> In k ks.
Proof.
  unfold mem. rewrite existsb_exists. split.
  - intros [x [Hx Hk]]. apply String.eqb_eq in Hk. now subst.
  - intros Hk. exists k. split; [assumption | apply String.eqb_refl].
Qed.

Lemma mem_false (k : string) (ks : list string) :
  mem k ks = false <-> ~ In k ks.
Proof.
  rewrite <- mem_In. destruct (mem k ks); split; congruence.
Qed.

Lemma dict_get_None (k : string) (d : dict) :
  dict_get k d = None <-> ~ In k (keys d).
Proof.
  induction d as [|[k' v] d IH]; simpl.
  - tauto.
  - destruct (String.eqb_spec k k') as [->|Hne].
    + split; [discriminate | intros Hn; exfalso; apply Hn; now left].
    + rewrite IH. split.
      * intros Hn [He|Hi]; [now apply Hne | now apply Hn].
      * intros Hn Hi. apply Hn. now right.
Qed.

Lemma dict_get_set_eq (k : string) (v : value) (d : dict) :
  dict_get k (dict_set k v d) = Some v.
Proof.
  induction d as [|[k' v'] d IH]; simpl.
  - now rewrite String.eqb_refl.
  - destruct (String.eqb_spec k k') as [->|Hne]; simpl.
    + now rewrite String.eqb_refl.
    + destruct (String.eqb_spec k k'); [contradiction | assumption].
Qed.

Lemma dict_get_set_neq (k k' : string) (v : value) (d : dict) :
  k <> k' -> dict_get k (dict_set k' v d) = dict_get k d.
Proof.
  intros Hne. induction d as [|[k0 v0] d IH]; simpl.
  - destruct (String.eqb_spec k k'); [contradiction | reflexivity].
  - destruct (String.eqb_spec k' k0) as [->|Hne0]; simpl.
    + destruct (String.eqb_spec k k0); [contradiction | reflexivity].
    + destruct (String.eqb_spec k k0); [reflexivity | assumption].
Qed.

Lemma dict_set_fresh (k : string) (v : value) (d : dict) :
  ~ In k (keys d) -> dict_set k v d = d ++ [(k, v)].
Proof.
  induction d as [|[k' v'] d IH]; simpl; intros Hn.
  - reflexivity.
  - destruct (String.eqb_spec k k') as [->|Hne].
    + exfalso. apply Hn. now left.
    + f_equal. apply IH. intros Hi. apply Hn. now right.
Qed.

Lemma dict_get_remove_neq (k k' : string) (d : dict) :
  k <> k' -> dict_get k (dict_remove k' d) = dict_get k d.
Proof.
  intros Hne. induction d as [|[k0 v0] d IH]; simpl.
  - reflexivity.
  - destruct (String.eqb_spec k' k0) as [->|Hne0]; simpl.
    + destruct (String.eqb_spec k k0); [contradiction | reflexivity].
    + destruct (String.eqb_spec k k0); [reflexivity | assumption].
Qed.

(** Updating with entries whose keys are new and distinct appends them. *)
Lemma dict_update_fresh (extra d : dict) :
  NoDup (keys extra) ->
  (forall k, In k (keys extra) -> ~ In k (keys d)) ->
  dict_update d extra = d ++ extra.
Proof.
  unfold dict_update. revert d.
  induction extra as [|[k v] extra IH]; simpl; intros d Hnd Hfresh.
  - now rewrite app_nil_r.
  - inversion Hnd as [|? ? Hk Hnd']; subst.
    rewrite dict_set_fresh by (apply Hfresh; now left).
    rewrite IH; [now rewrite <- app_assoc | assumption |].
    intros k' Hk' Hin. unfold keys in Hin. rewrite map_app in Hin.
    apply in_app_or in Hin. destruct Hin as [Hin|[<-|[]]].
    + apply (Hfresh k'); [now right | assumption].
    + contradiction.
Qed.

Lemma dict_get_update_notin (k : string) (extra d : dict) :
  ~ In k (keys extra) -> dict_get k (dict_update d extra) = dict_get k d.
Proof.
  unfold dict_update. revert d.
  induction extra as [|[k' v] extra IH]; simpl; intros d Hn.
  - reflexivity.
  - rewrite IH by tauto. apply dict_get_set_neq. intros ->. apply Hn. now left.
Qed.

Lemma dict_get_update_in (k : string) (extra d : dict) :
  In k (keys extra) -> exists v, dict_get k (dict_update d extra) = Some v.
Proof.
  unfold dict_update. revert d.
  induction extra as [|[k' v] extra IH]; simpl; intros d Hi.
  - contradiction.
  - destruct (in_dec string_dec k (keys extra)) as [Hin|Hnin].
    + now apply IH.
    + destruct Hi as [->|Hi]; [|contradiction].
      exists v. fold (dict_update (dict_set k v d) extra).
      rewrite dict_get_update_notin by assumption. apply dict_get_set_eq.
Qed.

(** ** Attribute writes *)

Lemma setattr_ordinary (name : string) (v : value) (self : obj) :
  ~ In name special_names ->
  setattr name v self
  = (mkObj (ob_class self) (dict_set name v (__dict__ self)), Ok tt).
Proof.
  intros Hn. unfold setattr.
  destruct (String.eqb_spec name "__class__") as [->|_];
    [exfalso; apply Hn; simpl; tauto|].
  destruct (String.eqb_spec name "__weakref__") as [->|_];
    [exfalso; apply Hn; simpl; tauto|].
  destruct (String.eqb_spec name "__dict__") as [->|_];
    [exfalso; apply Hn; simpl; tauto|].
  reflexivity.
Qed.

Lemma for_each_setattr (kw : dict) (self : obj) :
  (forall k, In k (keys kw) -> ~ In k special_names) ->
  for_each kw (fun kv => setattr (fst kv) (snd kv)) self
  = (mkObj (ob_class self) (dict_update (__dict__ self) kw), Ok tt).
Proof.
  revert self. induction kw as [|[k v] kw IH]; intros [c d] Hord; simpl.
  - reflexivity.
  - unfold bind. simpl fst. simpl snd.
    rewrite setattr_ordinary by (apply Hord; simpl; tauto).
    rewrite IH by (intros k' Hk'; apply Hord; simpl; tauto).
    reflexivity.
Qed.

Lemma DataStore_init_run (c : class) (pn pv sp : value) (kwargs : dict) :
  (forall k, In k (keys kwargs) -> ~ In k special_names) ->
  DataStore.__init__ pn pv sp kwargs (mkObj c [])
  = (mkObj c (dict_update [("param_name", pn); ("param_vals", pv);
                           ("system_params", sp);
                           ("data_names", VKeys (keys kwargs))] kwargs),
     Ok tt).
Proof.
  intros Hord. unfold DataStore.__init__, bind. simpl.
  now rewrite for_each_setattr.
Qed.

(** ** Construction *)

Lemma merge_keywords_inv (named starred kw : dict) :
  merge_keywords named starred = Ok kw ->
  kw = named ++ starred /\
  forall k, In k (keys starred) -> ~ In k (keys named).
Proof.
  unfold merge_keywords.
  destruct (existsb _ (keys starred)) eqn:E; [discriminate|].
  intros [= <-]. split; [reflexivity|].
  intros k Hk Hin. apply mem_In in Hin.
  assert (existsb (fun k => mem k (keys named)) (keys starred) = true)
    by (apply existsb_exists; eauto).
  congruence.
Qed.

Lemma merge_keywords_ok (named starred : dict) :
  (forall k, In k (keys starred) -> ~ In k (keys named)) ->
  merge_keywords named starred = Ok (named ++ starred).
Proof.
  intros Hd. unfold merge_keywords.
  destruct (existsb _ (keys starred)) eqn:E; [|reflexivity].
  apply existsb_exists in E. destruct E as [k [Hk Hm]].
  apply mem_In in Hm. now destruct (Hd k Hk).
Qed.

(** A direct construction with fields of ordinary names succeeds exactly
    when no extra field bears the name of a parameter of [__init__], and
    then it is [__init__] run on the fresh instance. *)
Lemma new_DataStore_ok (pn pv sp : value) (kwargs : dict) :
  (forall k, In k (keys kwargs) -> ~ In k special_names) ->
  (forall k, In k (keys kwargs) -> ~ In k parameter_names) ->
  new_DataStore pn pv sp kwargs
  = Ok (mkObj DataStore_class
          (dict_update [("param_name", pn); ("param_vals", pv);
                        ("system_params", sp);
                        ("data_names", VKeys (keys kwargs))] kwargs)).
Proof.
  intros Hord Hp. unfold new_DataStore.
  rewrite merge_keywords_ok.
  - assert (Hs : mem "self" (keys kwargs) = false).
    { apply mem_false. intros Hi. apply (Hp _ Hi). simpl. tauto. }
    unfold instantiate, rbind, required, initialized. simpl.
    rewrite Hs. now rewrite DataStore_init_run.
  - intros k Hk Hin. apply (Hp _ Hk). simpl in *. tauto.
Qed.

Lemma new_DataStore_inv (pn pv sp : value) (kwargs : dict) (o : obj) :
  (forall k, In k (keys kwargs) -> ~ In k special_names) ->
  new_DataStore pn pv sp kwargs = Ok o ->
  (forall k, In k (keys kwargs) -> ~ In k parameter_names) /\
  o = mkObj DataStore_class
        (dict_update [("param_name", pn); ("param_vals", pv);
                      ("system_params", sp);
                      ("data_names", VKeys (keys kwargs))] kwargs).
Proof.
  intros Hord Hnew.
  assert (Hp : forall k, In k (keys kwargs) -> ~ In k parameter_names).
  { unfold new_DataStore in Hnew.
    destruct (merge_keywords _ kwargs) as [kw|e] eqn:Em; [|discriminate].
    apply merge_keywords_inv in Em. destruct Em as [-> Hd].
    simpl in Hnew. unfold instantiate in Hnew. simpl in Hnew.
    destruct (mem "self" (keys kwargs)) eqn:Es; [discriminate|].
    apply mem_false in Es.
    intros k Hk [<-|Hin].
    - contradiction.
    - apply (Hd k Hk). simpl in *. tauto. }
  split; [assumption|].
  rewrite new_DataStore_ok in Hnew by assumption. congruence.
Qed.

(** ** Claims *)

(** C10.  [param_count()] returns the length of [param_vals] whenever
    [param_vals] is a sequence, of any length N; on a sweep of length zero
    it returns 0 and does not raise, on a sweep of length one it returns 1. *)
Theorem param_count_is_len (self : obj) (l : list value) :
  getattr "param_vals" self = Ok (VArr l) ->
  DataStore.param_count self = Ok (Z.of_nat (List.length l)) /\
  (l = [] -> DataStore.param_count self = Ok 0%Z) /\
  (forall x, l = [x] -> DataStore.param_count self = Ok 1%Z).
Proof.
  intros Hv. unfold DataStore.param_count. rewrite Hv. simpl.
  repeat split; intros; subst; reflexivity.
Qed.

(** C5.  When the metadata dictionary lacks [param_name] or [param_vals],
    building a new instance from parts raises the [KeyError] of a key that
    is really missing, whatever the class: no default stands in for the
    key and no object is returned. *)
Theorem init_from_data_missing_key (cls : class) (metadata_dict : dict)
    (name_list : list string) (data_list : list value) :
  dict_get "param_name" metadata_dict = None \/
  dict_get "param_vals" metadata_dict = None ->
  exists k,
    (k = "param_name" \/ k = "param_vals") /\
    dict_get k metadata_dict = None /\
    _init_from_data cls metadata_dict name_list data_list
    = Raise (KeyError k).
Proof.
  intros Hmiss. unfold _init_from_data, dict_pop.
  destruct (dict_get "param_name" metadata_dict) as [pn|] eqn:En.
  - destruct Hmiss as [Hm|Hm]; [discriminate|].
    exists "param_vals". repeat split; [now right | assumption |].
    simpl. rewrite dict_get_remove_neq by discriminate. now rewrite Hm.
  - exists "param_name". repeat split; [now left | assumption].
Qed.

Section Serialization.
Context `{Misc}.

(** C3.  A [SpectrumData] built by its own constructor has an empty
    [data_names]: the three tables are plain attributes of the instance,
    the data dictionary is empty, and serializing writes the metadata
    record and adds no dataset to the writer. *)
Theorem SpectrumData_init_data_names_empty
    (param_name param_vals energy_table : value) (system_params : dict)
    (state_table matrixelem_table : value) (w : Writer) :
  exists self,
    initialized SpectrumData_class
      (SpectrumData.__init__ param_name param_vals energy_table
         (VDict system_params) state_table matrixelem_table) = Ok self /\
    getattr "data_names" self = Ok (VKeys []) /\
    getattr "energy_table" self = Ok energy_table /\
    getattr "state_table" self = Ok state_table /\
    getattr "matrixelem_table" self = Ok matrixelem_table /\
    DataStore._get_data_dict self = Ok [] /\
    DataStore._serialize self w
    = (mkWriter
         (Some (dict_update [("param_name", param_name);
                             ("param_vals", param_vals)]
                  (process_metadata system_params)))
         (w_datasets w), Ok tt).
Proof.
  eexists. split; [reflexivity|].
  repeat split.
Qed.

End Serialization.

(** C9, as amended.  For a store constructed directly with extra named
    fields, none of them named [data_names] or by a special name
    ([__dict__], [__class__], [__weakref__]): [data_names] is the key view
    of exactly those fields; [param_name], [param_vals] and
    [system_params] are not among them; every entry of [data_names] is an
    attribute of the object. *)
Theorem data_names_derivation (param_name param_vals system_params : value)
    (kwargs : dict) (self : obj) :
  new_DataStore param_name param_vals system_params kwargs = Ok self ->
  ~ In "data_names" (keys kwargs) ->
  (forall k, In k (keys kwargs) -> ~ In k special_names) ->
  getattr "data_names" self = Ok (VKeys (keys kwargs)) /\
  (forall k, py_contains k (VKeys (keys kwargs)) = Ok true
             <-> In k (keys kwargs)) /\
  py_contains "param_name" (VKeys (keys kwargs)) = Ok false /\
  py_contains "param_vals" (VKeys (keys kwargs)) = Ok false /\
  py_contains "system_params" (VKeys (keys kwargs)) = Ok false /\
  (forall k, In k (keys kwargs) -> exists v, getattr k self = Ok v).
Proof.
  intros Hnew Hdn Hord. apply new_DataStore_inv in Hnew; [|exact Hord].
  destruct Hnew as [Hp ->].
  assert (Hout : forall k, In k parameter_names ->
                           py_contains k (VKeys (keys kwargs)) = Ok false).
  { intros k Hk. simpl. f_equal. apply mem_false. intros Hi.
    now apply (Hp k Hi). }
  split; [|split; [|split; [|split; [|split]]]].
  - unfold getattr. simpl __dict__.
    now rewrite dict_get_update_notin by assumption.
  - intros k. simpl. rewrite <- mem_In. split; congruence.
  - apply Hout. simpl. tauto.
  - apply Hout. simpl. tauto.
  - apply Hout. simpl. tauto.
  - intros k Hk. unfold getattr. simpl __dict__.
    destruct (dict_get_update_in k kwargs
                [("param_name", param_name); ("param_vals", param_vals);
                 ("system_params", system_params);
                 ("data_names", VKeys (keys kwargs))] Hk) as [v Hv].
    exists v. now rewrite Hv.
Qed.

(** ** Populating an existing instance *)

Lemma keys_combine (names : list string) (data : list value) (k : string) :
  In k (keys (combine names data)) -> In k names.
Proof.
  unfold keys. rewrite in_map_iff. intros [[k' v] [<- Hin]].
  simpl. eapply in_combine_l. eassumption.
Qed.

(** The loop over [enumerate(name_list)]: the names that have data are
    bound in order; the first name without data raises [IndexError]. *)
Lemma set_attributes_run (names : list string) :
  forall (data pre : list value) (i : nat) (self : obj),
    (forall k, In k names -> ~ In k special_names) ->
    i = List.length pre ->
    for_each (enumerate_from i names)
      (fun ia => bind (lift (list_index (pre ++ data) (fst ia)))
                      (fun x => setattr (snd ia) x)) self
    = (mkObj (ob_class self)
         (dict_update (__dict__ self) (combine names data)),
       if Nat.leb (List.length names) (List.length data)
       then Ok tt else Raise IndexError).
Proof.
  induction names as [|n names IH]; intros data pre i [c d] Hord Hi; simpl.
  - reflexivity.
  - unfold bind at 1. unfold bind at 1. unfold lift, list_index. simpl.
    subst i. rewrite nth_error_app2 by lia. rewrite Nat.sub_diag.
    destruct data as [|x data]; simpl.
    + reflexivity.
    + rewrite setattr_ordinary by (apply Hord; simpl; tauto).
      replace (pre ++ x :: data) with ((pre ++ [x]) ++ data)
        by (now rewrite <- app_assoc).
      rewrite (IH data (pre ++ [x]) (S (List.length pre))).
      * reflexivity.
      * intros k Hk. apply Hord. simpl. tauto.
      * rewrite length_app. simpl. lia.
Qed.

(** What [set_from_data] does up to its loop. *)
Lemma set_from_data_steps (metadata_dict : dict) (name_list : list string)
    (data_list : list value) (self : obj) :
  DataStore.set_from_data metadata_dict name_list data_list self
  = match dict_get "param_name" metadata_dict with
    | None => (self, Raise (KeyError "param_name"))
    | Some pn =>
        let d1 := dict_set "param_name" pn (__dict__ self) in
        let md1 := dict_remove "param_name" metadata_dict in
        match dict_get "param_vals" md1 with
        | None => (mkObj (ob_class self) d1, Raise (KeyError "param_vals"))
        | Some pv =>
            for_each (enumerate name_list)
              (fun ia => bind (lift (list_index data_list (fst ia)))
                              (fun x => setattr (snd ia) x))
              (mkObj (ob_class self)
                 (dict_set "system_params"
                    (VDict (dict_remove "param_vals" md1))
                    (dict_set "param_vals" pv d1)))
        end
    end.
Proof.
  unfold DataStore.set_from_data, dict_pop.
  destruct (dict_get "param_name" metadata_dict) as [pn|] eqn:En;
    [|reflexivity].
  unfold bind at 1. unfold lift at 1. simpl fst. simpl snd.
  unfold bind at 1. simpl.
  destruct (dict_get "param_vals" (dict_remove "param_name" metadata_dict))
    as [pv|] eqn:Ev; reflexivity.
Qed.

(** What [set_from_data] does, case by case, when the names of the
    datasets are ordinary. *)
Lemma set_from_data_run (metadata_dict : dict) (name_list : list string)
    (data_list : list value) (self : obj) :
  (forall k, In k name_list -> ~ In k special_names) ->
  DataStore.set_from_data metadata_dict name_list data_list self
  = match dict_get "param_name" metadata_dict with
    | None => (self, Raise (KeyError "param_name"))
    | Some pn =>
        let d1 := dict_set "param_name" pn (__dict__ self) in
        let md1 := dict_remove "param_name" metadata_dict in
        match dict_get "param_vals" md1 with
        | None => (mkObj (ob_class self) d1, Raise (KeyError "param_vals"))
        | Some pv =>
            let d3 := dict_set "system_params"
                        (VDict (dict_remove "param_vals" md1))
                        (dict_set "param_vals" pv d1) in
            (mkObj (ob_class self)
               (dict_update d3 (combine name_list data_list)),
             if Nat.leb (List.length name_list) (List.length data_list)
             then Ok tt else Raise IndexError)
        end
    end.
Proof.
  intros Hord. rewrite set_from_data_steps.
  destruct (dict_get "param_name" metadata_dict) as [pn|]; [|reflexivity].
  cbv zeta.
  destruct (dict_get "param_vals" (dict_remove "param_name" metadata_dict))
    as [pv|]; [|reflexivity].
  exact (set_attributes_run name_list data_list [] 0
           (mkObj (ob_class self) _) Hord eq_refl).
Qed.

Lemma setattr_frame (k name : string) (v : value) (self : obj) :
  k <> name -> name <> "__dict__" ->
  getattr k (fst (setattr name v self)) = getattr k self.
Proof.
  intros Hk Hd. unfold setattr.
  destruct (String.eqb name "__class__"); [reflexivity|].
  destruct (String.eqb name "__weakref__"); [reflexivity|].
  destruct (String.eqb_spec name "__dict__"); [contradiction|].
  unfold getattr. simpl. now rewrite dict_get_set_neq.
Qed.

(** The loop of [set_from_data] leaves alone every attribute that is no
    dataset name, as long as no dataset is named [__dict__]. *)
Lemma set_attributes_frame (k : string) (data : list value)
    (names : list string) :
  forall (i : nat) (self : obj),
    ~ In k names -> ~ In "__dict__" names ->
    getattr k
      (fst (for_each (enumerate_from i names)
              (fun ia => bind (lift (list_index data (fst ia)))
                              (fun x => setattr (snd ia) x)) self))
    = getattr k self.
Proof.
  induction names as [|n names IH]; intros i self Hk Hd; simpl.
  - reflexivity.
  - unfold bind at 1. unfold bind at 1. unfold lift. simpl fst. simpl snd.
    destruct (list_index data i) as [x|e]; [|reflexivity].
    assert (Hkn : k <> n) by (intros ->; apply Hk; now left).
    assert (Hnd : n <> "__dict__") by (intros ->; apply Hd; now left).
    assert (Hk' : ~ In k names) by (intros Hin; apply Hk; now right).
    assert (Hd' : ~ In "__dict__" names) by (intros Hin; apply Hd; now right).
    pose proof (setattr_frame k n x self Hkn Hnd) as Hset.
    destruct (setattr n x self) as [self' [u|e]]; simpl in Hset.
    + now rewrite IH by assumption.
    + exact Hset.
Qed.

(** C7, as amended.  When neither [data_names] nor [__dict__] is among
    the names of [name_list], populating from parts leaves [data_names]
    as it was, whether the call returns or raises; when, besides, no
    name is [__class__] or [__weakref__], on a triple with both keys and
    data for every name it returns, having rebound [param_name],
    [param_vals], [system_params] and then one attribute per name. *)
Theorem set_from_data_keeps_data_names (metadata_dict : dict)
    (name_list : list string) (data_list : list value) (self : obj) :
  ~ In "data_names" name_list ->
  ~ In "__dict__" name_list ->
  getattr "data_names"
    (fst (DataStore.set_from_data metadata_dict name_list data_list self))
  = getattr "data_names" self /\
  (forall pn pv,
     (forall k, In k name_list -> ~ In k special_names) ->
     dict_get "param_name" metadata_dict = Some pn ->
     dict_get "param_vals" metadata_dict = Some pv ->
     (List.length name_list <= List.length data_list)%nat ->
     DataStore.set_from_data metadata_dict name_list data_list self
     = (mkObj (ob_class self)
          (dict_update
             (dict_set "system_params"
                (VDict (dict_remove "param_vals"
                          (dict_remove "param_name" metadata_dict)))
                (dict_set "param_vals" pv
                   (dict_set "param_name" pn (__dict__ self))))
             (combine name_list data_list)),
        Ok tt)).
Proof.
  intros Hdn Hdict. split.
  - rewrite set_from_data_steps.
    destruct (dict_get "param_name" metadata_dict) as [pn|]; [|reflexivity].
    cbv zeta.
    destruct (dict_get "param_vals" _) as [pv|].
    + unfold enumerate.
      rewrite (set_attributes_frame "data_names" data_list name_list)
        by assumption.
      unfold getattr. simpl.
      now rewrite !dict_get_set_neq by discriminate.
    + unfold getattr. simpl. now rewrite dict_get_set_neq by discriminate.
  - intros pn pv Hord Hn Hv Hlen. rewrite set_from_data_run by exact Hord.
    rewrite Hn. cbv zeta.
    rewrite dict_get_remove_neq by discriminate. rewrite Hv.
    apply Nat.leb_le in Hlen. now rewrite Hlen.
Qed.

(** C6, as amended.  A call that fails at the first extraction
    ([param_name] missing) leaves the object as it was.  A call that fails
    later has rebound what comes before the failure: [param_name] when
    [param_vals] is missing; the three fixed fields and the attributes of
    the names that have data when [data_list] is shorter than [name_list]
    and no name is a special one ([__dict__], [__class__],
    [__weakref__]). *)
Theorem set_from_data_failure (metadata_dict : dict)
    (name_list : list string) (data_list : list value) (self : obj) :
  (dict_get "param_name" metadata_dict = None ->
   DataStore.set_from_data metadata_dict name_list data_list self
   = (self, Raise (KeyError "param_name"))) /\
  (forall pn,
     dict_get "param_name" metadata_dict = Some pn ->
     dict_get "param_vals" metadata_dict = None ->
     DataStore.set_from_data metadata_dict name_list data_list self
     = (mkObj (ob_class self) (dict_set "param_name" pn (__dict__ self)),
        Raise (KeyError "param_vals"))) /\
  (forall pn pv,
     (forall k, In k name_list -> ~ In k special_names) ->
     dict_get "param_name" metadata_dict = Some pn ->
     dict_get "param_vals" metadata_dict = Some pv ->
     (List.length data_list < List.length name_list)%nat ->
     DataStore.set_from_data metadata_dict name_list data_list self
     = (mkObj (ob_class self)
          (dict_update
             (dict_set "system_params"
                (VDict (dict_remove "param_vals"
                          (dict_remove "param_name" metadata_dict)))
                (dict_set "param_vals" pv
                   (dict_set "param_name" pn (__dict__ self))))
             (combine name_list data_list)),
        Raise IndexError)).
Proof.
  split; [|split].
  - rewrite set_from_data_steps. intros ->. reflexivity.
  - rewrite set_from_data_steps. intros pn -> Hv. cbv zeta.
    rewrite dict_get_remove_neq by discriminate. now rewrite Hv.
  - intros pn pv Hord Hn Hv Hlen. rewrite set_from_data_run by exact Hord.
    rewrite Hn. cbv zeta.
    rewrite dict_get_remove_neq by discriminate. rewrite Hv.
    apply Nat.leb_gt in Hlen. now rewrite Hlen.
Qed.

(** The sample objects are what the constructors build. *)
Lemma example_spectrum_built :
  initialized SpectrumData_class
    (SpectrumData.__init__ (VStr "flux") (VArr [VNum 0; VNum 1])
       example_table (VDict example_params) VNone VNone)
  = Ok (example_spectrum example_table).
Proof. reflexivity. Qed.

Lemma example_store_built :
  new_DataStore (VStr "flux") (VArr [VNum 0; VNum 1]) (VDict example_params)
    [("a", example_table); ("b", VNone)]
  = Ok example_store.
Proof. reflexivity. Qed.

(** ** Ground-state subtraction *)

Lemma np_column0_length (rows : list (list Z)) (c : list Z) :
  np_column0 rows = Ok c -> List.length c = List.length rows.
Proof.
  revert c. induction rows as [|r rows IH]; simpl; intros c Hc.
  - now injection Hc as <-.
  - destruct r as [|x r]; [discriminate|].
    destruct (np_column0 rows) as [c'|e]; [|discriminate].
    simpl in Hc. injection Hc as <-. simpl. f_equal. now apply IH.
Qed.

(** A table of n rows and m columns, with n different from both m and 1,
    does not broadcast against its own first column. *)
Lemma np_isub_column0_mismatch (r : list Z) (rows : list (list Z))
    (c : list Z) :
  np_column0 (r :: rows) = Ok c ->
  List.length (r :: rows) <> List.length r ->
  rows <> [] ->
  np_isub (r :: rows) c = Raise ValueError.
Proof.
  intros Hc Hnm Hn. apply np_column0_length in Hc.
  unfold np_isub. rewrite Hc.
  destruct (Nat.eqb_spec (List.length (r :: rows)) (List.length r));
    [contradiction|].
  destruct c as [|y [|y' c]]; try reflexivity.
  destruct rows; [contradiction | discriminate].
Qed.

Lemma on_int64_ok (a : list (list Z)) (b : list Z) (r : list (list Z)) :
  forallb (forallb int64) a = true -> forallb int64 b = true ->
  on_int64 a b r = Ok r.
Proof. intros Ha Hb. unfold on_int64. now rewrite Ha, Hb. Qed.

(** Only a table of a single row loses its ground energy row by row (in
    64-bit arithmetic). *)
Lemma np_isub_single_row (x : Z) (r : list Z) :
  forallb int64 (x :: r) = true ->
  np_column0 [x :: r] = Ok [x] /\
  np_isub [x :: r] [x] = Ok [map (fun y => wrap64 (y - x)) (x :: r)].
Proof.
  intros Hr. split; [reflexivity|].
  assert (Ha : forallb (forallb int64) [x :: r] = true).
  { change (forallb int64 (x :: r) && true = true). now rewrite Hr. }
  assert (Hb : forallb int64 [x] = true).
  { simpl in Hr. apply andb_prop in Hr. simpl. now rewrite (proj1 Hr). }
  unfold np_isub. destruct r as [|y r]; simpl Nat.eqb; cbv iota;
    now rewrite on_int64_ok.
Qed.

(** C2, on the code.  On the table [[1,2,3],[4,5,6]] the column of ground
    energies has shape (2,) and does not broadcast against the shape
    (2,3): [subtract_ground] raises [ValueError] and the table stays
    [[1,2,3],[4,5,6]], not [[0,1,2],[0,1,2]].  On the square table
    [[1,2],[4,6]] the column is subtracted from every row, which gives
    [[0,-2],[3,2]] and not [[0,1],[0,2]]. *)
Theorem subtract_ground_broadcast :
  SpectrumData.subtract_ground (example_spectrum example_table)
  = (example_spectrum example_table, Raise ValueError) /\
  example_table <> np_value [[0; 1; 2]; [0; 1; 2]]%Z /\
  SpectrumData.subtract_ground (example_spectrum square_table)
  = (example_spectrum (np_value [[0; -2]; [3; 2]]%Z), Ok tt).
Proof.
  repeat split. discriminate.
Qed.

(** ** Instances built from file contents *)

Lemma instantiate_SpectrumData_data_names (kw : dict) (self : obj) :
  instantiate SpectrumData_class kw = Ok self ->
  getattr "data_names" self = Ok (VKeys []).
Proof.
  unfold instantiate.
  destruct (mem "self" (keys kw)); [discriminate|].
  destruct (required "param_name" kw) as [a|]; simpl; [|discriminate].
  destruct (required "param_vals" (snd a)) as [b|]; simpl; [|discriminate].
  destruct (required "energy_table" (snd b)) as [c|]; simpl; [|discriminate].
  destruct (required "system_params" (snd c)) as [d|]; simpl; [|discriminate].
  destruct (snd (optional "matrixelem_table" VNone
                   (snd (optional "state_table" VNone (snd d)))));
    [|discriminate].
  intros [= <-]. reflexivity.
Qed.

(** Whatever the file holds, a [SpectrumData] built from its contents has
    an empty [data_names]. *)
Lemma init_from_data_SpectrumData_data_names (metadata_dict : dict)
    (name_list : list string) (data_list : list value) (self : obj) :
  _init_from_data SpectrumData_class metadata_dict name_list data_list
  = Ok self ->
  getattr "data_names" self = Ok (VKeys []).
Proof.
  unfold _init_from_data.
  destruct (dict_pop "param_name" metadata_dict) as [p|];
    simpl; [|discriminate].
  destruct (dict_pop "param_vals" (snd p)) as [q|]; simpl; [|discriminate].
  destruct (data_dict_of _ data_list []) as [dd|]; simpl; [|discriminate].
  destruct (merge_keywords _ dd) as [kw|]; simpl; [|discriminate].
  apply instantiate_SpectrumData_data_names.
Qed.

(** C4, on the code.  From the triple of a file with the single dataset
    [energy_table], the base class builds a store whose [data_names] is
    that name, and [SpectrumData] builds an instance that holds the table
    but whose [data_names] is empty: its [__init__] passes no extra field
    on to [DataStore.__init__]. *)
Theorem init_from_data_SpectrumData_loses_names :
  (exists self,
     _init_from_data DataStore_class example_metadata
       ["energy_table"] [example_table] = Ok self /\
     getattr "data_names" self = Ok (VKeys ["energy_table"])) /\
  (exists self,
     _init_from_data SpectrumData_class example_metadata
       ["energy_table"] [example_table] = Ok self /\
     getattr "energy_table" self = Ok example_table /\
     getattr "data_names" self = Ok (VKeys []) /\
     DataStore._get_data_dict self = Ok []).
Proof.
  split; eexists; repeat split.
Qed.

(** ** Counterexamples *)

(** C6 as stated fails: with [param_name] present and [param_vals]
    missing, the call raises after it has rebound [param_name]. *)
Lemma set_from_data_partial_rebind :
  snd (DataStore.set_from_data [("param_name", VStr "ng")] ["a"] [VNum 7]
         example_store) = Raise (KeyError "param_vals") /\
  getattr "param_name" example_store = Ok (VStr "flux") /\
  getattr "param_name"
    (fst (DataStore.set_from_data [("param_name", VStr "ng")] ["a"] [VNum 7]
            example_store)) = Ok (VStr "ng") /\
  fst (DataStore.set_from_data [("param_name", VStr "ng")] ["a"] [VNum 7]
         example_store) <> example_store.
Proof.
  repeat split. discriminate.
Qed.

(** C7 as stated fails: a dataset named [data_names] rebinds the
    attribute [data_names] like any other. *)
Lemma set_from_data_rebinds_data_names :
  snd (DataStore.set_from_data example_metadata ["data_names"] [VNum 7]
         example_store) = Ok tt /\
  getattr "data_names" example_store = Ok (VKeys ["a"; "b"]) /\
  getattr "data_names"
    (fst (DataStore.set_from_data example_metadata ["data_names"] [VNum 7]
            example_store)) = Ok (VNum 7).
Proof.
  repeat split.
Qed.

(** C9 as stated fails: an extra field named [data_names] replaces the
    key view; [data_names] is then the field's value, not the set of the
    field names, and may well contain [param_name]. *)
Lemma data_names_field_replaces_key_view :
  exists self,
    new_DataStore (VStr "flux") (VArr [VNum 0; VNum 1]) (VDict example_params)
      [("data_names", VArr [VStr "param_name"])] = Ok self /\
    getattr "data_names" self = Ok (VArr [VStr "param_name"]) /\
    getattr "data_names" self <> Ok (VKeys ["data_names"]) /\
    py_contains "param_name" (VArr [VStr "param_name"]) = Ok true /\
    py_contains "data_names" (VArr [VStr "param_name"]) = Ok false.
Proof.
  eexists. repeat split. discriminate.
Qed.

(** C8 as stated fails: a data field may bear the name of a method that
    [_serialize] calls through [self].  The field [_get_data_dict] is in
    [data_names] like the field [a], neither is [None], and
    serialization raises [TypeError] after the metadata record, with no
    dataset written. *)
Lemma serialize_shadowed_method_raises :
  exists self,
    new_DataStore (VStr "flux") (VArr [VNum 0; VNum 1]) (VDict example_params)
      [("a", example_table); ("_get_data_dict", VNum 5)] = Ok self /\
    getattr "data_names" self = Ok (VKeys ["a"; "_get_data_dict"]) /\
    getattr "a" self = Ok example_table /\
    getattr "_get_data_dict" self = Ok (VNum 5) /\
    @DataStore._serialize misc_model self new_writer
    = (mkWriter
         (Some [("param_name", VStr "flux");
                ("param_vals", VArr [VNum 0; VNum 1]);
                ("EJ", VNum 30); ("EC", VNum 1)]) [],
       Raise TypeError).
Proof.
  eexists. repeat split.
Qed.

(** ** Serialization *)

Lemma In_dict_get (d : dict) (k : string) (v : value) :
  NoDup (keys d) -> (In (k, v) d <-> dict_get k d = Some v).
Proof.
  induction d as [|[k' v'] d IH]; simpl; intros Hnd.
  - split; [contradiction | discriminate].
  - inversion Hnd as [|? ? Hk Hnd']; subst.
    destruct (String.eqb_spec k k') as [->|Hne].
    + split.
      * intros [[= ->]|Hin]; [reflexivity|].
        exfalso. apply Hk. apply (in_map fst) in Hin. exact Hin.
      * intros [= ->]. now left.
    + rewrite <- (IH Hnd'). split.
      * intros [[= -> ->]|Hin]; [contradiction | assumption].
      * intros Hin. now right.
Qed.

Lemma NoDup_keys_filter (f : string * value -> bool) (d : dict) :
  NoDup (keys d) -> NoDup (keys (filter f d)).
Proof.
  induction d as [|[k v] d IH]; simpl; intros Hnd.
  - constructor.
  - inversion Hnd as [|? ? Hk Hnd']; subst.
    destruct (f (k, v)); simpl; [|now apply IH].
    constructor; [|now apply IH].
    intros Hin. apply Hk. unfold keys in *.
    apply in_map_iff in Hin. destruct Hin as [[k' v'] [Hfst Hin]].
    apply filter_In in Hin. apply in_map_iff.
    exists (k', v'). tauto.
Qed.

Lemma filter_all {A} (f : A -> bool) (l : list A) :
  (forall x, In x l -> f x = true) -> filter f l = l.
Proof.
  induction l as [|x l IH]; simpl; intros Hall.
  - reflexivity.
  - rewrite (Hall x) by now left. f_equal. apply IH.
    intros y Hy. apply Hall. now right.
Qed.

Lemma map_id_on {A} (f : A -> A) (l : list A) :
  (forall x, In x l -> f x = x) -> map f l = l.
Proof.
  induction l as [|x l IH]; simpl; intros Hall.
  - reflexivity.
  - rewrite (Hall x) by now left. f_equal. apply IH.
    intros y Hy. apply Hall. now right.
Qed.

Lemma py_contains_container (data_names : value) (k : string) :
  is_container data_names = true ->
  py_contains k data_names = Ok (named_in data_names k).
Proof. unfold named_in. destruct data_names; simpl; congruence. Qed.

(** The comprehension of [_get_data_dict], when [data_names] is a
    container: the attributes whose name is in it, in attribute order. *)
Lemma data_dict_from_run (self : obj) (data_names : value) (items : dict) :
  getattr "data_names" self = Ok data_names ->
  is_container data_names = true ->
  forall acc,
    DataStore.data_dict_from self items acc
    = Ok (dict_update acc
            (filter (fun kv => named_in data_names (fst kv)) items)).
Proof.
  intros Hdn Hc. induction items as [|[k v] items IH]; intros acc; simpl.
  - reflexivity.
  - rewrite Hdn. simpl. rewrite (py_contains_container _ k Hc). simpl.
    rewrite IH. now destruct (named_in data_names k).
Qed.

Lemma get_data_dict_run (self : obj) (data_names : value) :
  NoDup (keys (__dict__ self)) ->
  getattr "data_names" self = Ok data_names ->
  is_container data_names = true ->
  DataStore._get_data_dict self
  = Ok (filter (fun kv => named_in data_names (fst kv)) (__dict__ self)).
Proof.
  intros Hnd Hdn Hc. unfold DataStore._get_data_dict.
  rewrite (data_dict_from_run self data_names _ Hdn Hc).
  rewrite dict_update_fresh.
  - reflexivity.
  - now apply NoDup_keys_filter.
  - intros k _ [].
Qed.

Section SerializationRuns.
Context `{Misc}.

Lemma for_each_add_dataset (items : dict) (w : Writer) :
  for_each items
    (fun item => add_dataset (fst item) (convert_to_ndarray (snd item))) w
  = (mkWriter (w_meta w)
       (w_datasets w
        ++ map (fun item => (fst item, convert_to_ndarray (snd item))) items),
     Ok tt).
Proof.
  revert w. induction items as [|[k v] items IH]; intros [m ds]; simpl.
  - now rewrite app_nil_r.
  - unfold bind, add_dataset, modify. simpl. rewrite IH. simpl.
    now rewrite <- app_assoc.
Qed.

Lemma serialize_run (self : obj) (w : Writer) (pn pv : value) (sp : dict)
    (data_names : value) :
  NoDup (keys (__dict__ self)) ->
  getattr "param_name" self = Ok pn ->
  getattr "param_vals" self = Ok pv ->
  getattr "system_params" self = Ok (VDict sp) ->
  getattr "data_names" self = Ok data_names ->
  is_container data_names = true ->
  methods_unshadowed self ->
  DataStore._serialize self w
  = (mkWriter
       (Some (dict_update [("param_name", pn); ("param_vals", pv)]
                (process_metadata sp)))
       (w_datasets w ++ written_datasets self data_names),
     Ok tt).
Proof.
  intros Hnd Hpn Hpv Hsp Hdn Hc [Hm1 Hm2].
  unfold DataStore._serialize, call_method. rewrite Hm1, Hm2.
  unfold DataStore._get_metadata_dict.
  rewrite Hpn, Hpv, Hsp. simpl rbind.
  rewrite (get_data_dict_run self data_names Hnd Hdn Hc).
  unfold bind, lift, create_meta, modify.
  rewrite for_each_add_dataset. reflexivity.
Qed.

(** C8, as amended.  For a store ([param_name] and [param_vals] bound,
    [system_params] a mapping, [data_names] a collection of names) that
    has no attribute named [_get_metadata_dict] or [_get_data_dict],
    serialization returns, having written the metadata record and exactly
    one dataset, the converted value, for every name that is in
    [data_names] and bound to a value other than [None].  A name of
    [data_names] bound to [None] gets no dataset, and [data_names], which
    serialization does not write, still holds it. *)
Theorem serialize_writes_present_fields (self : obj) (w : Writer)
    (pn pv : value) (sp : dict) (data_names : value) :
  (forall k v, value_not_none (k, v) = negb (is_none v)) ->
  NoDup (keys (__dict__ self)) ->
  getattr "param_name" self = Ok pn ->
  getattr "param_vals" self = Ok pv ->
  getattr "system_params" self = Ok (VDict sp) ->
  getattr "data_names" self = Ok data_names ->
  is_container data_names = true ->
  methods_unshadowed self ->
  exists written,
    DataStore._serialize self w
    = (mkWriter
         (Some (dict_update [("param_name", pn); ("param_vals", pv)]
                  (process_metadata sp)))
         (w_datasets w ++ written),
       Ok tt) /\
    NoDup (map fst written) /\
    (forall k a,
       In (k, a) written <->
       py_contains k data_names = Ok true /\
       exists v, getattr k self = Ok v /\ v <> VNone /\
                 a = convert_to_ndarray v) /\
    (forall k,
       py_contains k data_names = Ok true ->
       getattr k self = Ok VNone ->
       ~ In k (map fst written)).
Proof.
  intros Hvn Hnd Hpn Hpv Hsp Hdn Hc Hm.
  exists (written_datasets self data_names).
  assert (Hin : forall k a,
             In (k, a) (written_datasets self data_names) <->
             py_contains k data_names = Ok true /\
             exists v, getattr k self = Ok v /\ v <> VNone /\
                       a = convert_to_ndarray v).
  { intros k a. unfold written_datasets. rewrite in_map_iff.
    rewrite (py_contains_container _ k Hc). split.
    - intros [[k' v] [[= <- <-] Hf]].
      apply filter_In in Hf. destruct Hf as [Hf Hv].
      apply filter_In in Hf. destruct Hf as [Hd Hk].
      simpl in *. rewrite Hvn in Hv.
      split; [now rewrite Hk|].
      exists v. unfold getattr.
      apply (In_dict_get _ _ _ Hnd) in Hd. rewrite Hd.
      repeat split. intros ->. discriminate.
    - intros [Hk [v [Hg [Hv ->]]]]. exists (k, v). split; [reflexivity|].
      unfold getattr in Hg.
      destruct (dict_get k (__dict__ self)) as [v'|] eqn:E; [|discriminate].
      injection Hg as ->. apply (In_dict_get _ _ _ Hnd) in E.
      apply filter_In. split.
      + apply filter_In. split; [assumption | simpl; congruence].
      + rewrite Hvn. now destruct v. }
  split; [now apply serialize_run|].
  split; [|split].
  - unfold written_datasets. rewrite map_map. simpl.
    apply (NoDup_keys_filter value_not_none).
    now apply NoDup_keys_filter.
  - exact Hin.
  - intros k Hk Hnone Hmem. apply in_map_iff in Hmem.
    destruct Hmem as [[k' a] [Hfst Hka]]. simpl in Hfst. subst k'.
    apply Hin in Hka. destruct Hka as [_ [v [Hg [Hv _]]]].
    rewrite Hnone in Hg. injection Hg as <-. now apply Hv.
Qed.

End SerializationRuns.

(** ** The model of the helpers meets their contract *)

Lemma flatten_items_flat (f : value -> dict) (d : dict) :
  flat d = true ->
  forall acc, flatten_items f d acc = dict_update acc d.
Proof.
  unfold flat, dict_update.
  induction d as [|[k x] d IH]; simpl; intros Hflat acc.
  - reflexivity.
  - apply andb_prop in Hflat. destruct Hflat as [Hx Hd].
    rewrite <- (IH Hd). now destruct x.
Qed.

Lemma shape_not_none (v : value) (s : list nat) :
  shape v = Some s -> is_none v = false.
Proof. destruct v; simpl; congruence. Qed.

Lemma misc_model_contract : @misc_contract misc_model.
Proof.
  constructor; simpl.
  - intros d Hnd Hflat. rewrite flatten_items_flat by assumption.
    apply (dict_update_fresh d [] Hnd). intros k _ [].
  - reflexivity.
  - reflexivity.
Qed.

(** ** Round trip *)

Lemma combine_keys_values (d : dict) : combine (keys d) (values d) = d.
Proof.
  induction d as [|[k v] d IH]; simpl; [reflexivity | now rewrite IH].
Qed.

(** The comprehension of [_init_from_data]: one entry per name, or an
    [IndexError] at the first name without data. *)
Lemma data_dict_of_run (names : list string) :
  forall (data pre : list value) (i : nat) (acc : dict),
    i = List.length pre ->
    data_dict_of (enumerate_from i names) (pre ++ data) acc
    = if Nat.leb (List.length names) (List.length data)
      then Ok (dict_update acc (combine names data))
      else Raise IndexError.
Proof.
  induction names as [|n names IH]; intros data pre i acc Hi; simpl.
  - reflexivity.
  - unfold list_index. subst i.
    rewrite nth_error_app2 by lia. rewrite Nat.sub_diag.
    destruct data as [|x data]; simpl.
    + reflexivity.
    + replace (pre ++ x :: data) with ((pre ++ [x]) ++ data)
        by (now rewrite <- app_assoc).
      apply IH. rewrite length_app. simpl. lia.
Qed.

Section RoundTrip.
Context `{Misc}.

(** A freshly built store whose fields avoid the names the store uses. *)
Lemma new_store_form (pn pv sp : value) (kwargs : dict) (self : obj) :
  NoDup (keys kwargs) ->
  (forall k, In k (keys kwargs) -> ~ In k store_names) ->
  new_DataStore pn pv sp kwargs = Ok self ->
  self = mkObj DataStore_class
           ([("param_name", pn); ("param_vals", pv); ("system_params", sp);
             ("data_names", VKeys (keys kwargs))] ++ kwargs) /\
  NoDup (keys (__dict__ self)) /\
  methods_unshadowed self /\
  (forall k, In k (keys kwargs) ->
             ~ In k ["param_name"; "param_vals"; "system_params";
                     "data_names"]).
Proof.
  intros Hknd Hnames Hnew.
  assert (Hord : forall k, In k (keys kwargs) -> ~ In k special_names)
    by (intros k Hk Hin; apply (Hnames k Hk); simpl in *; tauto).
  destruct (new_DataStore_inv _ _ _ _ _ Hord Hnew) as [Hp Hself].
  assert (Hfix : forall k, In k (keys kwargs) ->
             ~ In k ["param_name"; "param_vals"; "system_params";
                     "data_names"]).
  { intros k Hin Hk. simpl in Hk.
    destruct Hk as [<-|[<-|[<-|[<-|[]]]]];
      try (apply (Hp _ Hin); simpl; tauto).
    apply (Hnames _ Hin). simpl. tauto. }
  rewrite dict_update_fresh in Hself; [|assumption | exact Hfix].
  split; [exact Hself|]. subst self. simpl __dict__.
  split; [|split; [|exact Hfix]].
  - simpl. repeat constructor; try assumption;
      simpl; intros Hin; repeat (destruct Hin as [Hin|Hin]; try discriminate);
      apply (Hfix _ Hin); simpl; tauto.
  - split; simpl; apply dict_get_None; intros Hin;
      apply (Hnames _ Hin); simpl; tauto.
Qed.

(** What serializing a freshly built store writes: the parameters and the
    [system_params] as metadata, and the fields that pass the filter, each
    converted. *)
Lemma serialize_new_store_fields (pn pv : value) (sp kwargs : dict)
    (self : obj) :
  misc_contract ->
  NoDup (keys sp) ->
  flat sp = true ->
  ~ In "param_name" (keys sp) ->
  ~ In "param_vals" (keys sp) ->
  NoDup (keys kwargs) ->
  (forall k, In k (keys kwargs) -> ~ In k store_names) ->
  new_DataStore pn pv (VDict sp) kwargs = Ok self ->
  DataStore._serialize self new_writer
  = (mkWriter (Some (("param_name", pn) :: ("param_vals", pv) :: sp))
       (map (fun item => (fst item, convert_to_ndarray (snd item)))
          (filter value_not_none kwargs)),
     Ok tt).
Proof.
  intros Hc Hsnd Hflat Hspn Hspv Hknd Hnames Hnew.
  destruct (new_store_form _ _ _ _ _ Hknd Hnames Hnew)
    as [Hself [Hnd [Hm Hfix]]].
  assert (Hsel : filter (fun kv => named_in (VKeys (keys kwargs)) (fst kv))
                   (__dict__ self)
                 = kwargs).
  { subst self. simpl __dict__. unfold named_in. simpl py_contains.
    assert (Hmem : forall k,
               In k ["param_name"; "param_vals"; "system_params";
                     "data_names"] ->
               mem k (keys kwargs) = false)
      by (intros k Hk; apply mem_false; intros Hin; now apply (Hfix k Hin)).
    simpl. rewrite !Hmem by (simpl; tauto). simpl.
    apply filter_all. intros [k v] Hin. apply mem_In.
    apply (in_map fst) in Hin. exact Hin. }
  assert (Hser := serialize_run self new_writer pn pv sp
                    (VKeys (keys kwargs)) Hnd).
  unfold written_datasets in Hser. rewrite Hsel in Hser.
  rewrite (process_metadata_flat Hc sp Hsnd Hflat) in Hser.
  rewrite dict_update_fresh in Hser;
    [|assumption | intros k Hk [<-|[<-|[]]]; contradiction].
  apply Hser; try exact Hm; subst self; reflexivity.
Qed.

(** When every field is a uniformly-shaped numeric array, the fields are
    written as they are. *)
Lemma serialize_new_store (pn pv : value) (sp kwargs : dict) (self : obj) :
  misc_contract ->
  NoDup (keys sp) ->
  flat sp = true ->
  ~ In "param_name" (keys sp) ->
  ~ In "param_vals" (keys sp) ->
  NoDup (keys kwargs) ->
  (forall k v, In (k, v) kwargs -> exists s, shape v = Some s) ->
  (forall k, In k (keys kwargs) -> ~ In k store_names) ->
  new_DataStore pn pv (VDict sp) kwargs = Ok self ->
  DataStore._serialize self new_writer
  = (mkWriter (Some (("param_name", pn) :: ("param_vals", pv) :: sp)) kwargs,
     Ok tt).
Proof.
  intros Hc Hsnd Hflat Hspn Hspv Hknd Hnum Hnames Hnew.
  rewrite (serialize_new_store_fields _ _ _ _ _ Hc Hsnd Hflat Hspn Hspv
             Hknd Hnames Hnew).
  rewrite filter_all.
  - rewrite map_id_on; [reflexivity|]. intros [k v] Hin. simpl.
    destruct (Hnum k v Hin) as [s Hs].
    now rewrite (convert_to_ndarray_numeric Hc v s Hs).
  - intros [k v] Hin. rewrite (value_not_none_spec Hc).
    destruct (Hnum k v Hin) as [s Hs].
    now rewrite (shape_not_none v s Hs).
Qed.

(** C1, as amended.  Take a store built with a flat [system_params] of
    scalars whose keys are distinct from [param_name] and [param_vals],
    and with uniformly-shaped numeric data fields none of which bears a
    name the store itself uses: [data_names], the methods
    [_get_metadata_dict] and [_get_data_dict], or a special name
    ([__dict__], [__class__], [__weakref__]).  Serializing it into a fresh
    writer returns; reading the metadata record and the datasets back and
    building a new instance from that triple returns the store itself:
    same [param_name], [param_vals], [system_params], [data_names] and
    data fields. *)
Theorem serialize_init_from_data_round_trip
    (param_name param_vals : value) (system_params kwargs : dict)
    (self : obj) :
  misc_contract ->
  NoDup (keys system_params) ->
  flat system_params = true ->
  ~ In "param_name" (keys system_params) ->
  ~ In "param_vals" (keys system_params) ->
  NoDup (keys kwargs) ->
  (forall k v, In (k, v) kwargs -> exists s, shape v = Some s) ->
  (forall k, In k (keys kwargs) -> ~ In k store_names) ->
  new_DataStore param_name param_vals (VDict system_params) kwargs
  = Ok self ->
  exists w metadata_dict name_list data_list,
    DataStore._serialize self new_writer = (w, Ok tt) /\
    read w = Ok (metadata_dict, name_list, data_list) /\
    name_list = keys kwargs /\
    _init_from_data DataStore_class metadata_dict name_list data_list
    = Ok self.
Proof.
  intros Hc Hsnd Hflat Hspn Hspv Hknd Hnum Hnames Hnew.
  pose proof (serialize_new_store _ _ _ _ _ Hc Hsnd Hflat Hspn Hspv Hknd
                Hnum Hnames Hnew) as Hser.
  eexists. exists (("param_name", param_name) :: ("param_vals", param_vals)
                   :: system_params), (keys kwargs), (values kwargs).
  split; [exact Hser|]. split; [reflexivity|]. split; [reflexivity|].
  unfold _init_from_data, dict_pop. simpl.
  pose proof (data_dict_of_run (keys kwargs) (values kwargs) [] 0 []
                eq_refl) as Hdd.
  change ([] ++ values kwargs) with (values kwargs) in Hdd.
  change (enumerate_from 0 (keys kwargs)) with (enumerate (keys kwargs))
    in Hdd.
  unfold keys at 2, values at 2 in Hdd.
  rewrite !length_map, Nat.leb_refl, combine_keys_values in Hdd.
  rewrite Hdd.
  rewrite (dict_update_fresh kwargs [] Hknd) by (intros k _ []).
  simpl. exact Hnew.
Qed.

End RoundTrip.

(** C1 as stated fails: a numeric data field named [data_names] replaces
    the key view, no attribute name is found in it, no dataset is
    written, and the instance built from the file has lost the field. *)
Lemma round_trip_loses_field_named_data_names :
  shape (VArr [VNum 1; VNum 2]) = Some [2] /\
  flat example_params = true /\
  exists self w metadata_dict self',
    new_DataStore (VStr "flux") (VArr [VNum 0; VNum 1]) (VDict example_params)
      [("data_names", VArr [VNum 1; VNum 2])] = Ok self /\
    @DataStore._serialize misc_model self new_writer = (w, Ok tt) /\
    read w = Ok (metadata_dict, [], []) /\
    _init_from_data DataStore_class metadata_dict [] [] = Ok self' /\
    getattr "data_names" self = Ok (VArr [VNum 1; VNum 2]) /\
    getattr "data_names" self' = Ok (VKeys []) /\
    self' <> self.
Proof.
  split; [reflexivity|]. split; [reflexivity|].
  do 4 eexists. repeat split. discriminate.
Qed.

(** The base class does derive [data_names] from the names of the file:
    the path [SpectrumData] misses. *)
Lemma keys_combine_all (names : list string) :
  forall data : list value,
    (List.length names <= List.length data)%nat ->
    keys (combine names data) = names.
Proof.
  induction names as [|n names IH]; intros [|x data] Hlen; simpl in *;
    try reflexivity; try lia.
  f_equal. apply IH. lia.
Qed.

Lemma init_from_data_DataStore_data_names (metadata_dict : dict)
    (name_list : list string) (data_list : list value) (pn pv : value) :
  dict_get "param_name" metadata_dict = Some pn ->
  dict_get "param_vals" metadata_dict = Some pv ->
  NoDup name_list ->
  (List.length name_list <= List.length data_list)%nat ->
  (forall k, In k name_list ->
             ~ In k ("data_names" :: parameter_names ++ special_names)) ->
  exists self,
    _init_from_data DataStore_class metadata_dict name_list data_list
    = Ok self /\
    getattr "data_names" self = Ok (VKeys name_list).
Proof.
  intros Hn Hv Hnd Hlen Hnames.
  unfold _init_from_data, dict_pop. rewrite Hn. simpl.
  rewrite dict_get_remove_neq by discriminate. rewrite Hv. simpl.
  pose proof (data_dict_of_run name_list data_list [] 0 [] eq_refl) as Hdd.
  change ([] ++ data_list) with data_list in Hdd.
  change (enumerate_from 0 name_list) with (enumerate name_list) in Hdd.
  apply Nat.leb_le in Hlen. rewrite Hlen in Hdd. apply Nat.leb_le in Hlen.
  rewrite Hdd. simpl rbind.
  pose proof (keys_combine_all name_list data_list Hlen) as Hkeys.
  rewrite dict_update_fresh;
    [|now rewrite Hkeys | intros k _ []].
  simpl app.
  change (rbind (merge_keywords ?named ?kw) (instantiate DataStore_class))
    with (new_DataStore pn pv
            (VDict (dict_remove "param_vals"
                      (dict_remove "param_name" metadata_dict)))
            (combine name_list data_list)).
  rewrite new_DataStore_ok.
  - eexists. split; [reflexivity|].
    unfold getattr. simpl __dict__.
    rewrite dict_get_update_notin.
    + simpl. now rewrite Hkeys.
    + rewrite Hkeys. intros Hin. apply (Hnames _ Hin). now left.
  - rewrite Hkeys. intros k Hin Hs. apply (Hnames _ Hin).
    right. apply in_or_app. now right.
  - rewrite Hkeys. intros k Hin Hp. apply (Hnames _ Hin).
    right. apply in_or_app. now left.
Qed.

(** ** The theorems at sample inputs *)

Lemma example_store_keys_NoDup : NoDup (keys (__dict__ example_store)).
Proof. nodup_literal. Defined.

Lemma param_count_is_len_witness :
  getattr "param_vals" example_store = Ok (VArr [VNum 0; VNum 1]) /\
  DataStore.param_count example_store = Ok 2%Z /\
  DataStore.param_count
    (mkObj DataStore_class [("param_vals", VArr [])]) = Ok 0%Z.
Proof.
  split; [reflexivity|]. split.
  - exact (proj1 (param_count_is_len example_store [VNum 0; VNum 1] eq_refl)).
  - exact (proj1 (proj2 (param_count_is_len
                           (mkObj DataStore_class [("param_vals", VArr [])])
                           [] eq_refl)) eq_refl).
Defined.

Lemma init_from_data_missing_key_witness :
  dict_get "param_vals" [("param_name", VStr "ng"); ("EJ", VNum 30)] = None /\
  exists k,
    (k = "param_name" \/ k = "param_vals") /\
    dict_get k [("param_name", VStr "ng"); ("EJ", VNum 30)] = None /\
    _init_from_data SpectrumData_class
      [("param_name", VStr "ng"); ("EJ", VNum 30)]
      ["energy_table"] [example_table]
    = Raise (KeyError k).
Proof.
  split; [reflexivity|].
  apply init_from_data_missing_key. right. reflexivity.
Defined.

Lemma data_names_derivation_witness :
  new_DataStore (VStr "flux") (VArr [VNum 0; VNum 1]) (VDict example_params)
    [("a", example_table); ("b", VNone)] = Ok example_store /\
  getattr "data_names" example_store = Ok (VKeys ["a"; "b"]) /\
  (forall k, In k ["a"; "b"] -> exists v, getattr k example_store = Ok v).
Proof.
  split; [reflexivity|].
  assert (Hdn : ~ In "data_names"
                  (keys [("a", example_table); ("b", VNone)]))
    by notin_literal.
  assert (Hord : forall k, In k (keys [("a", example_table); ("b", VNone)])
                            -> ~ In k special_names)
    by (intros k [<-|[<-|[]]]; notin_literal).
  pose proof (data_names_derivation _ _ _ _ _ example_store_built Hdn Hord)
    as Hd.
  split; [exact (proj1 Hd) | exact (proj2 (proj2 (proj2 (proj2 (proj2 Hd)))))].
Defined.

Lemma set_from_data_keeps_data_names_witness :
  ~ In "data_names" ["a"; "c"] /\
  ~ In "__dict__" ["a"; "c"] /\
  getattr "data_names"
    (fst (DataStore.set_from_data example_metadata ["a"; "c"]
            [VNum 7; VNum 8] example_store))
  = Ok (VKeys ["a"; "b"]) /\
  getattr "c"
    (fst (DataStore.set_from_data example_metadata ["a"; "c"]
            [VNum 7; VNum 8] example_store))
  = Ok (VNum 8).
Proof.
  assert (Hdn : ~ In "data_names" ["a"; "c"]) by notin_literal.
  assert (Hdict : ~ In "__dict__" ["a"; "c"]) by notin_literal.
  assert (Hord : forall k, In k ["a"; "c"] -> ~ In k special_names)
    by (intros k [<-|[<-|[]]]; notin_literal).
  split; [exact Hdn|]. split; [exact Hdict|]. split.
  - exact (proj1 (set_from_data_keeps_data_names example_metadata ["a"; "c"]
                    [VNum 7; VNum 8] example_store Hdn Hdict)).
  - rewrite (proj2 (set_from_data_keeps_data_names example_metadata
                      ["a"; "c"] [VNum 7; VNum 8] example_store Hdn Hdict)
               (VStr "ng") (VArr [VNum 0; VNum 1; VNum 2])
               Hord eq_refl eq_refl (le_n 2)).
    reflexivity.
Defined.

Lemma set_from_data_failure_witness :
  dict_get "param_name" [("EJ", VNum 30)] = None /\
  DataStore.set_from_data [("EJ", VNum 30)] ["a"] [VNum 7] example_store
  = (example_store, Raise (KeyError "param_name")) /\
  snd (DataStore.set_from_data example_metadata ["a"; "c"] [VNum 7]
         example_store) = Raise IndexError.
Proof.
  split; [reflexivity|]. split.
  - exact (proj1 (set_from_data_failure [("EJ", VNum 30)] ["a"] [VNum 7]
                    example_store) eq_refl).
  - assert (Hord : forall k, In k ["a"; "c"] -> ~ In k special_names)
      by (intros k [<-|[<-|[]]]; notin_literal).
    rewrite (proj2 (proj2 (set_from_data_failure example_metadata ["a"; "c"]
                             [VNum 7] example_store))
               (VStr "ng") (VArr [VNum 0; VNum 1; VNum 2])
               Hord eq_refl eq_refl (le_n 2)).
    reflexivity.
Defined.

Lemma serialize_writes_present_fields_witness :
  getattr "data_names" example_store = Ok (VKeys ["a"; "b"]) /\
  getattr "b" example_store = Ok VNone /\
  exists written,
    @DataStore._serialize misc_model example_store new_writer
    = (mkWriter
         (Some [("param_name", VStr "flux");
                ("param_vals", VArr [VNum 0; VNum 1]);
                ("EJ", VNum 30); ("EC", VNum 1)])
         written, Ok tt) /\
    In ("a", example_table) written /\
    ~ In "b" (map fst written).
Proof.
  split; [reflexivity|]. split; [reflexivity|].
  destruct (@serialize_writes_present_fields misc_model example_store
              new_writer (VStr "flux") (VArr [VNum 0; VNum 1])
              example_params (VKeys ["a"; "b"])
              (fun _ _ => eq_refl) example_store_keys_NoDup
              eq_refl eq_refl eq_refl eq_refl eq_refl
              (conj eq_refl eq_refl))
    as [written [Hser [_ [Hin Habsent]]]].
  exists written. split; [|split].
  - exact Hser.
  - apply Hin. split; [reflexivity|].
    exists example_table. repeat split. discriminate.
  - apply (Habsent "b"); reflexivity.
Defined.

Lemma serialize_init_from_data_round_trip_witness :
  new_DataStore (VStr "flux") (VArr [VNum 0; VNum 1]) (VDict example_params)
    [("a", example_table); ("g", VNum 5)]
  = Ok (mkObj DataStore_class
          [("param_name", VStr "flux"); ("param_vals", VArr [VNum 0; VNum 1]);
           ("system_params", VDict example_params);
           ("data_names", VKeys ["a"; "g"]);
           ("a", example_table); ("g", VNum 5)]) /\
  exists w metadata_dict name_list data_list,
    @DataStore._serialize misc_model
      (mkObj DataStore_class
         [("param_name", VStr "flux"); ("param_vals", VArr [VNum 0; VNum 1]);
          ("system_params", VDict example_params);
          ("data_names", VKeys ["a"; "g"]);
          ("a", example_table); ("g", VNum 5)]) new_writer = (w, Ok tt) /\
    read w = Ok (metadata_dict, name_list, data_list) /\
    name_list = ["a"; "g"] /\
    _init_from_data DataStore_class metadata_dict name_list data_list
    = Ok (mkObj DataStore_class
            [("param_name", VStr "flux");
             ("param_vals", VArr [VNum 0; VNum 1]);
             ("system_params", VDict example_params);
             ("data_names", VKeys ["a"; "g"]);
             ("a", example_table); ("g", VNum 5)]).
Proof.
  split; [reflexivity|].
  apply (@serialize_init_from_data_round_trip misc_model
           (VStr "flux") (VArr [VNum 0; VNum 1]) example_params
           [("a", example_table); ("g", VNum 5)]).
  - exact misc_model_contract.
  - nodup_literal.
  - reflexivity.
  - notin_literal.
  - notin_literal.
  - nodup_literal.
  - intros k v Hin. simpl in Hin.
    destruct Hin as [[= <- <-]|[[= <- <-]|[]]]; eexists; reflexivity.
  - intros k [<-|[<-|[]]]; notin_literal.
  - reflexivity.
Defined.

(** * Further properties of the storage classes *)

(** ** More on dictionaries *)

Lemma dict_get_update (k : string) (extra : dict) :
  NoDup (keys extra) ->
  forall d,
    dict_get k (dict_update d extra)
    = match dict_get k extra with
      | Some v => Some v
      | None => dict_get k d
      end.
Proof.
  unfold dict_update.
  induction extra as [|[k' v] extra IH]; simpl; intros Hnd d.
  - reflexivity.
  - inversion Hnd as [|? ? Hk Hnd']; subst.
    fold (dict_update (dict_set k' v d) extra).
    destruct (String.eqb_spec k k') as [->|Hne].
    + rewrite dict_get_update_notin by assumption. apply dict_get_set_eq.
    + unfold dict_update. rewrite (IH Hnd').
      now rewrite dict_get_set_neq by assumption.
Qed.

Lemma dict_set_same (k : string) (v : value) (d : dict) :
  dict_get k d = Some v -> dict_set k v d = d.
Proof.
  induction d as [|[k' v'] d IH]; simpl.
  - discriminate.
  - destruct (String.eqb_spec k k') as [->|Hne].
    + now intros [= ->].
    + intros Hg. f_equal. now apply IH.
Qed.

Lemma keys_dict_set_same (k : string) (v : value) (d : dict) :
  In k (keys d) -> keys (dict_set k v d) = keys d.
Proof.
  induction d as [|[k' v'] d IH]; simpl.
  - contradiction.
  - destruct (String.eqb_spec k k') as [->|Hne]; simpl.
    + reflexivity.
    + intros [He|Hin]; [congruence|]. f_equal. now apply IH.
Qed.

Lemma NoDup_keys_dict_set (k : string) (v : value) (d : dict) :
  NoDup (keys d) -> NoDup (keys (dict_set k v d)).
Proof.
  intros Hnd. destruct (in_dec string_dec k (keys d)) as [Hin|Hnin].
  - now rewrite keys_dict_set_same.
  - rewrite dict_set_fresh by assumption. unfold keys in *.
    rewrite map_app. simpl. apply NoDup_app; [assumption | repeat constructor; intros [] |].
    intros x Hx [<-|[]]. contradiction.
Qed.

Lemma NoDup_keys_dict_update (extra d : dict) :
  NoDup (keys d) -> NoDup (keys (dict_update d extra)).
Proof.
  unfold dict_update. revert d.
  induction extra as [|[k v] extra IH]; simpl; intros d Hnd.
  - assumption.
  - apply IH. now apply NoDup_keys_dict_set.
Qed.

Lemma In_keys_dict_set (k k' : string) (v : value) (d : dict) :
  In k (keys (dict_set k' v d)) <-> k = k' \/ In k (keys d).
Proof.
  induction d as [|[k0 v0] d IH]; simpl.
  - intuition congruence.
  - destruct (String.eqb_spec k' k0) as [->|Hne]; simpl.
    + intuition congruence.
    + rewrite IH. intuition congruence.
Qed.

Lemma In_keys_dict_update (k : string) (extra : dict) :
  forall d,
    In k (keys (dict_update d extra)) <-> In k (keys d) \/ In k (keys extra).
Proof.
  unfold dict_update.
  induction extra as [|[k' v] extra IH]; simpl; intros d.
  - tauto.
  - rewrite IH, In_keys_dict_set. intuition congruence.
Qed.

Lemma dict_get_Some_In (k : string) (v : value) (d : dict) :
  dict_get k d = Some v -> In k (keys d).
Proof.
  intros Hg. destruct (in_dec string_dec k (keys d)) as [Hin|Hnin];
    [assumption|].
  apply dict_get_None in Hnin. congruence.
Qed.

(** ** The metadata record *)

Section Metadata.
Context `{Misc}.

(** X1.  The metadata dictionary of a store always has the keys
    [param_name] and [param_vals].  Every key of the processed
    [system_params] is in it with its processed value, a system parameter
    named [param_name] or [param_vals] taking the place of the store's
    own attribute; without such a parameter the two keys hold the
    attributes.  It has no other key. *)
Theorem metadata_dict_lookup (self : obj) (pn pv : value) (sp : dict) :
  getattr "param_name" self = Ok pn ->
  getattr "param_vals" self = Ok pv ->
  getattr "system_params" self = Ok (VDict sp) ->
  NoDup (keys (process_metadata sp)) ->
  exists m,
    DataStore._get_metadata_dict self = Ok m /\
    dict_get "param_name" m <> None /\
    dict_get "param_vals" m <> None /\
    (forall k v, dict_get k (process_metadata sp) = Some v ->
                 dict_get k m = Some v) /\
    (dict_get "param_name" (process_metadata sp) = None ->
     dict_get "param_name" m = Some pn) /\
    (dict_get "param_vals" (process_metadata sp) = None ->
     dict_get "param_vals" m = Some pv) /\
    (forall k, dict_get k m <> None ->
               k = "param_name" \/ k = "param_vals" \/
               In k (keys (process_metadata sp))).
Proof.
  intros Hpn Hpv Hsp Hnd. eexists.
  unfold DataStore._get_metadata_dict. rewrite Hpn, Hpv, Hsp. simpl rbind.
  split; [reflexivity|].
  set (extra := process_metadata sp) in *.
  assert (Hget := fun k => dict_get_update k extra Hnd
                             [("param_name", pn); ("param_vals", pv)]).
  repeat split.
  - rewrite Hget. destruct (dict_get "param_name" extra); discriminate.
  - rewrite Hget. destruct (dict_get "param_vals" extra); discriminate.
  - intros k v Hk. now rewrite Hget, Hk.
  - intros Hk. now rewrite Hget, Hk.
  - intros Hk. now rewrite Hget, Hk.
  - intros k Hk. rewrite Hget in Hk.
    destruct (dict_get k extra) as [v|] eqn:E.
    + right. right. now apply (dict_get_Some_In k v).
    + simpl in Hk.
      destruct (String.eqb_spec k "param_name"); [now left|].
      destruct (String.eqb_spec k "param_vals"); [now right; left|].
      now contradiction Hk.
Qed.

End Metadata.

Lemma metadata_dict_lookup_witness :
  exists m,
    @DataStore._get_metadata_dict misc_model
      (mkObj DataStore_class
         [("param_name", VStr "flux"); ("param_vals", VArr [VNum 0]);
          ("system_params",
           VDict [("EJ", VNum 30); ("param_name", VStr "ng")]);
          ("data_names", VKeys [])]) = Ok m /\
    dict_get "param_name" m = Some (VStr "ng") /\
    dict_get "param_vals" m = Some (VArr [VNum 0]) /\
    dict_get "EJ" m = Some (VNum 30).
Proof.
  assert (Hnd : NoDup (keys (@process_metadata misc_model
                               [("EJ", VNum 30); ("param_name", VStr "ng")])))
    by nodup_literal.
  destruct (@metadata_dict_lookup misc_model
              (mkObj DataStore_class
                 [("param_name", VStr "flux"); ("param_vals", VArr [VNum 0]);
                  ("system_params",
                   VDict [("EJ", VNum 30); ("param_name", VStr "ng")]);
                  ("data_names", VKeys [])])
              (VStr "flux") (VArr [VNum 0])
              [("EJ", VNum 30); ("param_name", VStr "ng")]
              eq_refl eq_refl eq_refl Hnd)
    as [m [Hm [_ [_ [Hsys [_ [Hpv _]]]]]]].
  exists m. split; [|split; [|split]].
  - exact Hm.
  - apply Hsys. reflexivity.
  - apply Hpv. reflexivity.
  - apply Hsys. reflexivity.
Defined.

(** ** Direct construction *)

Lemma new_DataStore_getattr (pn pv sp : value) (kwargs : dict) (self : obj) :
  (forall k, In k (keys kwargs) -> ~ In k special_names) ->
  new_DataStore pn pv sp kwargs = Ok self ->
  NoDup (keys kwargs) ->
  forall k,
    getattr k self
    = match dict_get k kwargs with
      | Some v => Ok v
      | None =>
          match dict_get k [("param_name", pn); ("param_vals", pv);
                            ("system_params", sp);
                            ("data_names", VKeys (keys kwargs))] with
          | Some v => Ok v
          | None => Raise (AttributeError k)
          end
      end.
Proof.
  intros Hord Hnew Hnd k. apply new_DataStore_inv in Hnew; [|exact Hord].
  destruct Hnew as [_ ->]. unfold getattr. simpl __dict__.
  rewrite (dict_get_update k kwargs Hnd).
  now destruct (dict_get k kwargs).
Qed.

(** X2.  A store constructed directly with extra fields of distinct
    names, none of them a special name ([__dict__], [__class__],
    [__weakref__]), is a [DataStore] whose three fixed attributes are the
    arguments of the call, whatever the extra fields, and whose extra
    fields are bound to their values, a field named [data_names]
    included; its instance dictionary has these keys and [data_names],
    and no other.  With a sequence for [param_vals], [param_count] is its
    length. *)
Theorem new_DataStore_attributes (param_name param_vals system_params : value)
    (kwargs : dict) (self : obj) :
  new_DataStore param_name param_vals system_params kwargs = Ok self ->
  NoDup (keys kwargs) ->
  (forall k, In k (keys kwargs) -> ~ In k special_names) ->
  ob_class self = DataStore_class /\
  getattr "param_name" self = Ok param_name /\
  getattr "param_vals" self = Ok param_vals /\
  getattr "system_params" self = Ok system_params /\
  (forall k v, In (k, v) kwargs -> getattr k self = Ok v) /\
  (forall k, In k (keys (__dict__ self)) <->
             In k ["param_name"; "param_vals"; "system_params";
                   "data_names"] \/
             In k (keys kwargs)) /\
  (forall l, param_vals = VArr l ->
             DataStore.param_count self = Ok (Z.of_nat (List.length l))).
Proof.
  intros Hnew Hnd Hord.
  pose proof (new_DataStore_getattr _ _ _ _ _ Hord Hnew Hnd) as Hget.
  destruct (new_DataStore_inv _ _ _ _ _ Hord Hnew) as [Hp Hself].
  assert (Hfixed : forall k, In k parameter_names ->
                             dict_get k kwargs = None).
  { intros k Hk. apply dict_get_None. intros Hin. now apply (Hp k Hin). }
  assert (Hpv : getattr "param_vals" self = Ok param_vals)
    by (rewrite Hget, Hfixed by (simpl; tauto); reflexivity).
  split; [now subst self|].
  split; [|split; [|split; [|split; [|split]]]].
  - rewrite Hget, Hfixed by (simpl; tauto). reflexivity.
  - exact Hpv.
  - rewrite Hget, Hfixed by (simpl; tauto). reflexivity.
  - intros k v Hin. rewrite Hget.
    apply (In_dict_get _ _ _ Hnd) in Hin. now rewrite Hin.
  - intros k. subst self. simpl __dict__.
    rewrite In_keys_dict_update. simpl. tauto.
  - intros l ->. unfold DataStore.param_count. now rewrite Hpv.
Qed.

Lemma new_DataStore_attributes_witness :
  new_DataStore (VStr "flux") (VArr [VNum 0; VNum 1]) (VDict example_params)
    [("a", example_table); ("b", VNone)] = Ok example_store /\
  getattr "a" example_store = Ok example_table /\
  getattr "b" example_store = Ok VNone /\
  ~ In "energy_table" (keys (__dict__ example_store)) /\
  DataStore.param_count example_store = Ok 2%Z.
Proof.
  assert (Hnd : NoDup (keys [("a", example_table); ("b", VNone)]))
    by nodup_literal.
  assert (Hord : forall k, In k (keys [("a", example_table); ("b", VNone)])
                            -> ~ In k special_names)
    by (intros k [<-|[<-|[]]]; notin_literal).
  pose proof (new_DataStore_attributes _ _ _ _ _ example_store_built Hnd Hord)
    as [_ [_ [_ [_ [Hfields [Hkeys Hcount]]]]]].
  split; [reflexivity|]. split; [|split; [|split]].
  - apply Hfields. simpl. tauto.
  - apply Hfields. simpl. tauto.
  - intros Hk. apply Hkeys in Hk. simpl in Hk.
    repeat (destruct Hk as [Hk|Hk]; try discriminate); exact Hk.
  - exact (Hcount [VNum 0; VNum 1] eq_refl).
Defined.

(** ** Populating: outcomes and bindings *)

(** X3.  When no dataset has a special name ([__dict__], [__class__],
    [__weakref__]), populating from parts returns exactly when the
    metadata has both keys and every name has data (data beyond the names
    is ignored); it raises the [KeyError] of [param_name] exactly when
    that key is missing, of [param_vals] exactly when only that one is,
    and [IndexError] exactly when both are there and a name has no
    data. *)
Theorem set_from_data_outcome (metadata_dict : dict)
    (name_list : list string) (data_list : list value) (self : obj) :
  (forall k, In k name_list -> ~ In k special_names) ->
  (snd (DataStore.set_from_data metadata_dict name_list data_list self)
   = Ok tt <->
   dict_get "param_name" metadata_dict <> None /\
   dict_get "param_vals" metadata_dict <> None /\
   (List.length name_list <= List.length data_list)%nat) /\
  (snd (DataStore.set_from_data metadata_dict name_list data_list self)
   = Raise (KeyError "param_name") <->
   dict_get "param_name" metadata_dict = None) /\
  (snd (DataStore.set_from_data metadata_dict name_list data_list self)
   = Raise (KeyError "param_vals") <->
   dict_get "param_name" metadata_dict <> None /\
   dict_get "param_vals" metadata_dict = None) /\
  (snd (DataStore.set_from_data metadata_dict name_list data_list self)
   = Raise IndexError <->
   dict_get "param_name" metadata_dict <> None /\
   dict_get "param_vals" metadata_dict <> None /\
   (List.length data_list < List.length name_list)%nat).
Proof.
  intros Hord. rewrite (set_from_data_run _ _ _ _ Hord). clear Hord.
  destruct (dict_get "param_name" metadata_dict) as [pn|] eqn:En; cbv zeta.
  - rewrite dict_get_remove_neq by discriminate.
    destruct (dict_get "param_vals" metadata_dict) as [pv|] eqn:Ev; simpl snd.
    + destruct (Nat.leb_spec (List.length name_list) (List.length data_list));
        repeat split; try discriminate; try congruence; try lia;
        intros; try tauto; try lia; intuition congruence.
    + repeat split; try discriminate; try congruence; intros;
        intuition congruence.
  - simpl snd. repeat split; try discriminate; try congruence; intros;
      intuition congruence.
Qed.

Lemma set_from_data_outcome_witness :
  snd (DataStore.set_from_data example_metadata ["a"; "c"] [VNum 7]
         example_store) = Raise IndexError /\
  snd (DataStore.set_from_data example_metadata ["a"; "c"]
         [VNum 7; VNum 8; VNum 9] example_store) = Ok tt.
Proof.
  assert (Hord : forall k, In k ["a"; "c"] -> ~ In k special_names)
    by (intros k [<-|[<-|[]]]; notin_literal).
  split.
  - apply (set_from_data_outcome example_metadata ["a"; "c"] [VNum 7]
             example_store Hord).
    split; [discriminate|]. split; [discriminate|]. simpl. lia.
  - apply (set_from_data_outcome example_metadata ["a"; "c"]
             [VNum 7; VNum 8; VNum 9] example_store Hord).
    split; [discriminate|]. split; [discriminate|]. simpl. lia.
Defined.

Lemma dict_get_combine_nth (names : list string) :
  forall (data : list value) (i : nat) (name : string) (x : value),
    NoDup names ->
    nth_error names i = Some name ->
    nth_error data i = Some x ->
    dict_get name (combine names data) = Some x.
Proof.
  induction names as [|n names IH]; intros data i name x Hnd Hn Hx.
  - destruct i; discriminate.
  - inversion Hnd as [|? ? Hnotin Hnd']; subst.
    destruct i as [|i]; destruct data as [|y data]; simpl in *;
      try discriminate.
    + injection Hn as ->. injection Hx as ->. now rewrite String.eqb_refl.
    + destruct (String.eqb_spec name n) as [->|Hne].
      * exfalso. apply Hnotin. eapply nth_error_In. eassumption.
      * eapply IH; eassumption.
Qed.

Lemma NoDup_keys_combine (names : list string) :
  forall data : list value,
    NoDup names -> NoDup (keys (combine names data)).
Proof.
  induction names as [|n names IH]; intros data Hnd; simpl.
  - constructor.
  - inversion Hnd as [|? ? Hnotin Hnd']; subst.
    destruct data as [|y data]; simpl; constructor.
    + intros Hin. apply Hnotin. eapply keys_combine. exact Hin.
    + now apply IH.
Qed.

(** X4.  After a populate that returns, with distinct names none of which
    is special ([__dict__], [__class__], [__weakref__]), every name is
    bound to the data at its own position; a fixed field that is not
    itself a dataset name holds what the metadata gave ([system_params]
    the metadata left after the two keys are popped); every other
    attribute of an ordinary name is as before; and [param_count] is the
    length of the file's [param_vals]. *)
Theorem set_from_data_bindings (metadata_dict : dict)
    (name_list : list string) (data_list : list value) (self : obj)
    (pn pv : value) :
  dict_get "param_name" metadata_dict = Some pn ->
  dict_get "param_vals" metadata_dict = Some pv ->
  (List.length name_list <= List.length data_list)%nat ->
  NoDup name_list ->
  (forall k, In k name_list -> ~ In k special_names) ->
  exists self',
    DataStore.set_from_data metadata_dict name_list data_list self
    = (self', Ok tt) /\
    ob_class self' = ob_class self /\
    (forall i name x,
       nth_error name_list i = Some name ->
       nth_error data_list i = Some x ->
       getattr name self' = Ok x) /\
    (~ In "param_name" name_list -> getattr "param_name" self' = Ok pn) /\
    (~ In "param_vals" name_list -> getattr "param_vals" self' = Ok pv) /\
    (~ In "system_params" name_list ->
     getattr "system_params" self'
     = Ok (VDict (dict_remove "param_vals"
                    (dict_remove "param_name" metadata_dict)))) /\
    (forall k,
       ~ In k name_list ->
       ~ In k ["param_name"; "param_vals"; "system_params"] ->
       ~ In k special_names ->
       getattr k self' = getattr k self) /\
    (forall l,
       ~ In "param_vals" name_list -> pv = VArr l ->
       DataStore.param_count self' = Ok (Z.of_nat (List.length l))).
Proof.
  intros Hn Hv Hlen Hnd Hord. eexists.
  rewrite (set_from_data_run _ _ _ _ Hord). rewrite Hn. cbv zeta.
  rewrite dict_get_remove_neq by discriminate. rewrite Hv.
  apply Nat.leb_le in Hlen. rewrite Hlen.
  split; [reflexivity|]. split; [reflexivity|].
  assert (Hget := fun k d => dict_get_update k (combine name_list data_list)
                               (NoDup_keys_combine _ data_list Hnd) d).
  assert (Hout : forall k, ~ In k name_list ->
                           dict_get k (combine name_list data_list) = None).
  { intros k Hk. apply dict_get_None. intros Hin.
    apply Hk. eapply keys_combine. exact Hin. }
  assert (Hpv : ~ In "param_vals" name_list ->
                getattr "param_vals"
                  (mkObj (ob_class self)
                     (dict_update
                        (dict_set "system_params"
                           (VDict (dict_remove "param_vals"
                                     (dict_remove "param_name"
                                        metadata_dict)))
                           (dict_set "param_vals" pv
                              (dict_set "param_name" pn (__dict__ self))))
                        (combine name_list data_list))) = Ok pv).
  { intros Hk. unfold getattr. simpl __dict__.
    rewrite Hget, (Hout _ Hk).
    rewrite dict_get_set_neq by discriminate.
    now rewrite dict_get_set_eq. }
  repeat split.
  - intros i name x Hi Hx. unfold getattr. simpl __dict__.
    rewrite Hget.
    now rewrite (dict_get_combine_nth _ _ _ _ _ Hnd Hi Hx).
  - intros Hk. unfold getattr. simpl __dict__.
    rewrite Hget, (Hout _ Hk).
    rewrite !dict_get_set_neq by discriminate.
    now rewrite dict_get_set_eq.
  - exact Hpv.
  - intros Hk. unfold getattr. simpl __dict__.
    rewrite Hget, (Hout _ Hk). now rewrite dict_get_set_eq.
  - intros k Hk Hfix _. unfold getattr. simpl __dict__.
    rewrite Hget, (Hout _ Hk).
    rewrite !dict_get_set_neq; [reflexivity | | |];
      intros ->; apply Hfix; simpl; tauto.
  - intros l Hk ->. unfold DataStore.param_count. now rewrite (Hpv Hk).
Qed.

Lemma set_from_data_bindings_witness :
  exists self',
    DataStore.set_from_data example_metadata ["a"; "c"] [VNum 7; VNum 8]
      example_store = (self', Ok tt) /\
    getattr "c" self' = Ok (VNum 8) /\
    getattr "param_name" self' = Ok (VStr "ng") /\
    getattr "b" self' = Ok VNone /\
    DataStore.param_count self' = Ok 3%Z.
Proof.
  assert (Hnd : NoDup ["a"; "c"]) by nodup_literal.
  assert (Hord : forall k, In k ["a"; "c"] -> ~ In k special_names)
    by (intros k [<-|[<-|[]]]; notin_literal).
  destruct (set_from_data_bindings example_metadata ["a"; "c"]
              [VNum 7; VNum 8] example_store
              (VStr "ng") (VArr [VNum 0; VNum 1; VNum 2])
              eq_refl eq_refl (le_n 2) Hnd Hord)
    as [self' [Hrun [_ [Hbound [Hpn [_ [_ [Hframe Hcount]]]]]]]].
  exists self'. split; [exact Hrun|]. split; [|split; [|split]].
  - exact (Hbound 1%nat "c" (VNum 8) eq_refl eq_refl).
  - apply Hpn. notin_literal.
  - rewrite Hframe;
      [reflexivity | notin_literal | notin_literal | notin_literal].
  - apply (Hcount [VNum 0; VNum 1; VNum 2]); [notin_literal | reflexivity].
Defined.

Lemma keys_dict_remove (k k' : string) (d : dict) :
  In k (keys (dict_remove k' d)) -> In k (keys d).
Proof.
  induction d as [|[k0 v0] d IH]; simpl; [tauto|].
  destruct (String.eqb_spec k' k0); simpl; tauto.
Qed.

Lemma NoDup_keys_dict_remove (k : string) (d : dict) :
  NoDup (keys d) -> NoDup (keys (dict_remove k d)).
Proof.
  induction d as [|[k0 v0] d IH]; simpl; intros Hnd; [assumption|].
  inversion Hnd as [|? ? Hnotin Hnd']; subst.
  destruct (String.eqb_spec k k0); simpl; [assumption|].
  constructor; [|now apply IH].
  intros Hin. apply Hnotin. eapply keys_dict_remove. exact Hin.
Qed.

Lemma dict_get_remove_eq (k : string) (d : dict) :
  NoDup (keys d) -> dict_get k (dict_remove k d) = None.
Proof.
  induction d as [|[k0 v0] d IH]; simpl; intros Hnd; [reflexivity|].
  inversion Hnd as [|? ? Hnotin Hnd']; subst.
  destruct (String.eqb_spec k k0) as [->|Hne]; simpl.
  - now apply dict_get_None.
  - destruct (String.eqb_spec k k0); [contradiction | now apply IH].
Qed.

(** X5.  After a populate that returns, and unless [system_params] or a
    special name ([__dict__], [__class__], [__weakref__]) is a dataset
    name, the store's [system_params] is the metadata of the file
    without [param_name] and [param_vals]: these two keys are gone from
    it, every other key has the value the metadata had, and it has no key
    the metadata had not. *)
Theorem set_from_data_system_params (metadata_dict : dict)
    (name_list : list string) (data_list : list value) (self : obj)
    (pn pv : value) :
  NoDup (keys metadata_dict) ->
  dict_get "param_name" metadata_dict = Some pn ->
  dict_get "param_vals" metadata_dict = Some pv ->
  (List.length name_list <= List.length data_list)%nat ->
  ~ In "system_params" name_list ->
  (forall k, In k name_list -> ~ In k special_names) ->
  exists sp,
    getattr "system_params"
      (fst (DataStore.set_from_data metadata_dict name_list data_list self))
    = Ok (VDict sp) /\
    NoDup (keys sp) /\
    dict_get "param_name" sp = None /\
    dict_get "param_vals" sp = None /\
    (forall k, k <> "param_name" -> k <> "param_vals" ->
               dict_get k sp = dict_get k metadata_dict).
Proof.
  intros Hnd Hn Hv Hlen Hsp Hord.
  exists (dict_remove "param_vals" (dict_remove "param_name" metadata_dict)).
  rewrite (set_from_data_run _ _ _ _ Hord). rewrite Hn. cbv zeta.
  rewrite dict_get_remove_neq by discriminate. rewrite Hv.
  split; [|split; [|split; [|split]]].
  - unfold getattr. simpl.
    rewrite dict_get_update_notin
      by (intros Hin; apply Hsp; eapply keys_combine; exact Hin).
    now rewrite dict_get_set_eq.
  - now apply NoDup_keys_dict_remove, NoDup_keys_dict_remove.
  - rewrite dict_get_remove_neq by discriminate.
    now apply dict_get_remove_eq.
  - apply dict_get_remove_eq. now apply NoDup_keys_dict_remove.
  - intros k Hk1 Hk2. now rewrite !dict_get_remove_neq by assumption.
Qed.

Lemma set_from_data_system_params_witness :
  exists sp,
    getattr "system_params"
      (fst (DataStore.set_from_data example_metadata ["a"] [VNum 7]
              example_store)) = Ok (VDict sp) /\
    dict_get "param_name" sp = None /\
    dict_get "EJ" sp = Some (VNum 30).
Proof.
  assert (Hnd : NoDup (keys example_metadata)) by nodup_literal.
  assert (Hsp : ~ In "system_params" ["a"]) by notin_literal.
  assert (Hord : forall k, In k ["a"] -> ~ In k special_names)
    by (intros k [<-|[]]; notin_literal).
  destruct (set_from_data_system_params example_metadata ["a"] [VNum 7]
              example_store (VStr "ng") (VArr [VNum 0; VNum 1; VNum 2])
              Hnd eq_refl eq_refl (le_n 1) Hsp Hord)
    as [sp [Hget [_ [Hpn [_ Hother]]]]].
  exists sp. split; [exact Hget|]. split; [exact Hpn|].
  rewrite Hother by discriminate. reflexivity.
Defined.

(** ** The data dictionary *)

(** Whatever [set_from_data] does with datasets of ordinary names, it
    updates the instance dictionary with entries for the fixed fields and
    for dataset names only. *)
Lemma set_from_data_dict_form (metadata_dict : dict)
    (name_list : list string) (data_list : list value) (self : obj) :
  (forall k, In k name_list -> ~ In k special_names) ->
  exists extra,
    fst (DataStore.set_from_data metadata_dict name_list data_list self)
    = mkObj (ob_class self) (dict_update (__dict__ self) extra) /\
    forall k, In k (keys extra) ->
              In k ("param_name" :: "param_vals" :: "system_params"
                    :: name_list).
Proof.
  intros Hord. rewrite (set_from_data_run _ _ _ _ Hord). clear Hord.
  destruct (dict_get "param_name" metadata_dict) as [pn|]; cbv zeta.
  - destruct (dict_get "param_vals" _) as [pv|].
    + exists ([("param_name", pn); ("param_vals", pv);
               ("system_params",
                VDict (dict_remove "param_vals"
                         (dict_remove "param_name" metadata_dict)))]
              ++ combine name_list data_list).
      split.
      * unfold dict_update. rewrite fold_left_app. reflexivity.
      * intros k Hin. unfold keys in Hin. rewrite map_app in Hin.
        apply in_app_or in Hin. destruct Hin as [Hin|Hin].
        -- simpl in *. tauto.
        -- do 3 right. eapply keys_combine. exact Hin.
    + exists [("param_name", pn)]. split; [reflexivity|].
      simpl. tauto.
  - exists []. split; [now destruct self|]. intros k [].
Qed.

Lemma get_data_dict_spec (self : obj) (data_names : value) :
  NoDup (keys (__dict__ self)) ->
  getattr "data_names" self = Ok data_names ->
  is_container data_names = true ->
  exists dd,
    DataStore._get_data_dict self = Ok dd /\
    NoDup (keys dd) /\
    forall k v, In (k, v) dd <->
                py_contains k data_names = Ok true /\ getattr k self = Ok v.
Proof.
  intros Hnd Hdn Hc. eexists.
  split; [exact (get_data_dict_run self data_names Hnd Hdn Hc)|].
  split; [now apply NoDup_keys_filter|].
  intros k v. rewrite filter_In. simpl.
  rewrite (py_contains_container _ k Hc). rewrite (In_dict_get _ _ _ Hnd).
  unfold getattr. split.
  - intros [Hg Hk]. rewrite Hg, Hk. now split.
  - intros [Hk Hg].
    destruct (dict_get k (__dict__ self)); [|discriminate].
    split; congruence.
Qed.

(** X6.  The data dictionary of a store holds exactly the attributes whose
    name is in [data_names], each once and with its value, an attribute
    bound to [None] included.  When [data_names] is [None] or a number,
    asking for the data dictionary raises [TypeError]. *)
Theorem get_data_dict_membership (self : obj) (data_names : value) :
  NoDup (keys (__dict__ self)) ->
  getattr "data_names" self = Ok data_names ->
  (is_container data_names = true ->
   exists dd,
     DataStore._get_data_dict self = Ok dd /\
     NoDup (keys dd) /\
     (forall k v, In (k, v) dd <->
                  py_contains k data_names = Ok true /\
                  getattr k self = Ok v) /\
     (forall k, py_contains k data_names = Ok true ->
                getattr k self = Ok VNone -> In (k, VNone) dd)) /\
  (is_container data_names = false ->
   DataStore._get_data_dict self = Raise TypeError).
Proof.
  intros Hnd Hdn. split.
  - intros Hc.
    destruct (get_data_dict_spec self data_names Hnd Hdn Hc)
      as [dd [Hdd [Hnodup Hin]]].
    exists dd.
    split; [exact Hdd | split; [exact Hnodup | split; [exact Hin|]]].
    intros k Hk Hnone. apply Hin. now split.
  - intros Hc. unfold DataStore._get_data_dict.
    destruct (__dict__ self) as [|[k v] rest] eqn:Ed.
    + unfold getattr in Hdn. rewrite Ed in Hdn. discriminate.
    + simpl. rewrite Hdn. simpl. now destruct data_names.
Qed.

Lemma get_data_dict_membership_witness :
  exists dd,
    DataStore._get_data_dict example_store = Ok dd /\
    In ("b", VNone) dd /\
    ~ In ("param_name", VStr "flux") dd /\
    DataStore._get_data_dict
      (mkObj DataStore_class
         [("param_name", VStr "flux"); ("param_vals", VArr []);
          ("system_params", VDict []); ("data_names", VNone)])
    = Raise TypeError.
Proof.
  destruct (proj1 (get_data_dict_membership example_store (VKeys ["a"; "b"])
                     example_store_keys_NoDup eq_refl) eq_refl)
    as [dd [Hdd [_ [Hmem Hnone]]]].
  exists dd. split; [exact Hdd|]. split; [|split].
  - apply Hnone; reflexivity.
  - intros Hp. apply Hmem in Hp. destruct Hp as [Hp _]. discriminate.
  - apply (get_data_dict_membership
             (mkObj DataStore_class
                [("param_name", VStr "flux"); ("param_vals", VArr []);
                 ("system_params", VDict []); ("data_names", VNone)]) VNone);
      [nodup_literal | reflexivity | reflexivity].
Defined.

(** X7.  Populating with datasets of which none is named [data_names] or
    has a special name ([__dict__], [__class__], [__weakref__]) binds the
    datasets of the file as attributes but leaves the choice of what is
    data to the old [data_names], whether it returns or raises: afterwards
    the data dictionary holds exactly the attributes named in the
    [data_names] the store had before, so a dataset whose name is not in
    it is bound on the store and absent from its data dictionary. *)
Theorem set_from_data_then_data_dict (metadata_dict : dict)
    (name_list : list string) (data_list : list value) (self : obj)
    (data_names : value) :
  NoDup (keys (__dict__ self)) ->
  getattr "data_names" self = Ok data_names ->
  is_container data_names = true ->
  ~ In "data_names" name_list ->
  (forall k, In k name_list -> ~ In k special_names) ->
  exists dd,
    DataStore._get_data_dict
      (fst (DataStore.set_from_data metadata_dict name_list data_list self))
    = Ok dd /\
    (forall k v,
       In (k, v) dd <->
       py_contains k data_names = Ok true /\
       getattr k
         (fst (DataStore.set_from_data metadata_dict name_list data_list
                 self)) = Ok v) /\
    (forall k, py_contains k data_names = Ok false -> ~ In k (keys dd)).
Proof.
  intros Hnd Hdn Hc Hnames Hord.
  destruct (set_from_data_dict_form metadata_dict name_list data_list self
              Hord)
    as [extra [Hform Hextra]].
  rewrite Hform.
  assert (Hnd' : NoDup (keys (dict_update (__dict__ self) extra)))
    by now apply NoDup_keys_dict_update.
  assert (Hdn' : getattr "data_names"
                   (mkObj (ob_class self) (dict_update (__dict__ self) extra))
                 = Ok data_names).
  { unfold getattr in *. simpl __dict__.
    rewrite dict_get_update_notin; [exact Hdn|].
    intros Hin. apply Hextra in Hin. simpl in Hin.
    destruct Hin as [Hin|[Hin|[Hin|Hin]]]; try discriminate.
    contradiction. }
  destruct (get_data_dict_spec
              (mkObj (ob_class self) (dict_update (__dict__ self) extra))
              data_names Hnd' Hdn' Hc)
    as [dd [Hdd [_ Hin]]].
  exists dd. split; [exact Hdd|]. split; [exact Hin|].
  intros k Hk Hmem. unfold keys in Hmem. apply in_map_iff in Hmem.
  destruct Hmem as [[k' v] [Hfst Hkv]]. simpl in Hfst. subst k'.
  apply Hin in Hkv. destruct Hkv as [Hyes _]. congruence.
Qed.

Lemma set_from_data_then_data_dict_witness :
  exists dd,
    DataStore._get_data_dict
      (fst (DataStore.set_from_data example_metadata ["a"; "c"]
              [VNum 7; VNum 8] example_store)) = Ok dd /\
    In ("a", VNum 7) dd /\
    ~ In "c" (keys dd) /\
    getattr "c"
      (fst (DataStore.set_from_data example_metadata ["a"; "c"]
              [VNum 7; VNum 8] example_store)) = Ok (VNum 8).
Proof.
  assert (Hdn : ~ In "data_names" ["a"; "c"]) by notin_literal.
  assert (Hord : forall k, In k ["a"; "c"] -> ~ In k special_names)
    by (intros k [<-|[<-|[]]]; notin_literal).
  destruct (set_from_data_then_data_dict example_metadata ["a"; "c"]
              [VNum 7; VNum 8] example_store (VKeys ["a"; "b"])
              example_store_keys_NoDup eq_refl eq_refl Hdn Hord)
    as [dd [Hdd [Hin Hout]]].
  exists dd. split; [exact Hdd|]. split; [|split].
  - apply Hin. split; reflexivity.
  - apply Hout. reflexivity.
  - reflexivity.
Defined.

(** ** Writing a store and populating another from the file *)

Lemma dict_update_fields (kw : dict) :
  forall (pre kw0 : dict),
    keys kw0 = keys kw ->
    NoDup (keys kw) ->
    (forall k, In k (keys kw) -> ~ In k (keys pre)) ->
    dict_update (pre ++ kw0) kw = pre ++ kw.
Proof.
  unfold dict_update.
  induction kw as [|[k v] kw IH]; intros pre kw0 Hkeys Hnd Hfresh.
  - destruct kw0; [reflexivity | discriminate].
  - destruct kw0 as [|[k0 v0] kw0]; [discriminate|].
    simpl in Hkeys. injection Hkeys as -> Hkeys.
    inversion Hnd as [|? ? Hnotin Hnd']; subst. simpl.
    assert (Hset : dict_set k v (pre ++ (k, v0) :: kw0)
                   = (pre ++ [(k, v)]) ++ kw0).
    { clear - Hfresh. induction pre as [|[k' v'] pre IHpre]; simpl.
      - now rewrite String.eqb_refl.
      - destruct (String.eqb_spec k k') as [->|Hne].
        + exfalso. apply (Hfresh k'); simpl; tauto.
        + f_equal. apply IHpre. intros x Hx Hin.
          apply (Hfresh x Hx). simpl. tauto. }
    rewrite Hset. rewrite (IH (pre ++ [(k, v)]) kw0 Hkeys Hnd').
    + now rewrite <- app_assoc.
    + intros x Hx Hin. unfold keys in Hin. rewrite map_app in Hin.
      apply in_app_or in Hin. destruct Hin as [Hin|[<-|[]]].
      * apply (Hfresh x); simpl; tauto.
      * contradiction.
Qed.

Section PopulateRoundTrip.
Context `{Misc}.

(** X8.  Write a store (flat scalar [system_params] without the keys
    [param_name] and [param_vals], uniformly-shaped numeric fields, none
    bearing a name the store itself uses: [data_names],
    [_get_metadata_dict], [_get_data_dict], [__dict__], [__class__],
    [__weakref__]) and populate from the file any other store that was
    constructed with the same field names in the same order, whatever its
    parameters and values: the populate returns and the other store is
    now equal to the one written, attribute by attribute and in the order
    of its instance dictionary. *)
Theorem serialize_set_from_data_round_trip
    (param_name param_vals : value) (system_params kwargs : dict)
    (self : obj)
    (param_name0 param_vals0 system_params0 : value) (kwargs0 : dict)
    (other : obj) :
  misc_contract ->
  NoDup (keys system_params) ->
  flat system_params = true ->
  ~ In "param_name" (keys system_params) ->
  ~ In "param_vals" (keys system_params) ->
  NoDup (keys kwargs) ->
  (forall k v, In (k, v) kwargs -> exists s, shape v = Some s) ->
  (forall k, In k (keys kwargs) -> ~ In k store_names) ->
  new_DataStore param_name param_vals (VDict system_params) kwargs
  = Ok self ->
  new_DataStore param_name0 param_vals0 system_params0 kwargs0 = Ok other ->
  keys kwargs0 = keys kwargs ->
  exists w metadata_dict name_list data_list,
    DataStore._serialize self new_writer = (w, Ok tt) /\
    read w = Ok (metadata_dict, name_list, data_list) /\
    DataStore.set_from_data metadata_dict name_list data_list other
    = (self, Ok tt).
Proof.
  intros Hc Hsnd Hflat Hspn Hspv Hknd Hnum Hnames Hnew Hother Hkeys.
  pose proof (serialize_new_store _ _ _ _ _ Hc Hsnd Hflat Hspn Hspv Hknd
                Hnum Hnames Hnew) as Hser.
  destruct (new_store_form _ _ _ _ _ Hknd Hnames Hnew)
    as [Hself [_ [_ Hfix]]].
  assert (Hord : forall k, In k (keys kwargs) -> ~ In k special_names)
    by (intros k Hk Hin; apply (Hnames k Hk); simpl in *; tauto).
  assert (Hord0 : forall k, In k (keys kwargs0) -> ~ In k special_names)
    by (rewrite Hkeys; exact Hord).
  destruct (new_DataStore_inv _ _ _ _ _ Hord0 Hother) as [_ Ho].
  rewrite dict_update_fresh in Ho;
    [| now rewrite Hkeys | rewrite Hkeys; exact Hfix].
  exists (mkWriter (Some (("param_name", param_name)
                          :: ("param_vals", param_vals) :: system_params))
            kwargs),
    (("param_name", param_name) :: ("param_vals", param_vals)
     :: system_params), (keys kwargs), (values kwargs).
  split; [exact Hser|]. split; [reflexivity|].
  rewrite (set_from_data_run _ _ _ _ Hord). subst other. simpl.
  rewrite combine_keys_values.
  assert (Hlen : Nat.leb (List.length (keys kwargs))
                   (List.length (values kwargs)) = true)
    by (unfold keys, values; rewrite !length_map; apply Nat.leb_refl).
  rewrite Hlen, Hkeys. subst self. f_equal. f_equal.
  apply (dict_update_fields kwargs
           [("param_name", param_name); ("param_vals", param_vals);
            ("system_params", VDict system_params);
            ("data_names", VKeys (keys kwargs))] kwargs0 Hkeys Hknd Hfix).
Qed.

End PopulateRoundTrip.

Lemma serialize_set_from_data_round_trip_witness :
  exists w metadata_dict name_list data_list,
    @DataStore._serialize misc_model
      (mkObj DataStore_class
         [("param_name", VStr "flux"); ("param_vals", VArr [VNum 0; VNum 1]);
          ("system_params", VDict example_params);
          ("data_names", VKeys ["a"; "g"]);
          ("a", example_table); ("g", VNum 5)]) new_writer = (w, Ok tt) /\
    read w = Ok (metadata_dict, name_list, data_list) /\
    DataStore.set_from_data metadata_dict name_list data_list
      (mkObj DataStore_class
         [("param_name", VStr ""); ("param_vals", VNone);
          ("system_params", VNone); ("data_names", VKeys ["a"; "g"]);
          ("a", VNone); ("g", VNone)])
    = (mkObj DataStore_class
         [("param_name", VStr "flux"); ("param_vals", VArr [VNum 0; VNum 1]);
          ("system_params", VDict example_params);
          ("data_names", VKeys ["a"; "g"]);
          ("a", example_table); ("g", VNum 5)], Ok tt).
Proof.
  apply (@serialize_set_from_data_round_trip misc_model
           (VStr "flux") (VArr [VNum 0; VNum 1]) example_params
           [("a", example_table); ("g", VNum 5)] _
           (VStr "") VNone VNone [("a", VNone); ("g", VNone)]).
  - exact misc_model_contract.
  - nodup_literal.
  - reflexivity.
  - notin_literal.
  - notin_literal.
  - nodup_literal.
  - intros k v Hin. simpl in Hin.
    destruct Hin as [[= <- <-]|[[= <- <-]|[]]]; eexists; reflexivity.
  - intros k [<-|[<-|[]]]; notin_literal.
  - reflexivity.
  - reflexivity.
  - reflexivity.
Defined.

(** ** Serialization of a store whose [data_names] is no collection *)

Section SerializationErrors.
Context `{Misc}.

(** X9.  When [data_names] holds [None] or a number (an extra field named
    [data_names] can put it there) and no attribute of the store is named
    [_get_metadata_dict] or [_get_data_dict], serialization writes the
    metadata record and then raises [TypeError] at the first membership
    test: the writer is left with the record and no new dataset. *)
Theorem serialize_data_names_not_container (self : obj) (w : Writer)
    (pn pv : value) (sp : dict) (data_names : value) :
  getattr "param_name" self = Ok pn ->
  getattr "param_vals" self = Ok pv ->
  getattr "system_params" self = Ok (VDict sp) ->
  getattr "data_names" self = Ok data_names ->
  is_container data_names = false ->
  methods_unshadowed self ->
  DataStore._serialize self w
  = (mkWriter
       (Some (dict_update [("param_name", pn); ("param_vals", pv)]
                (process_metadata sp)))
       (w_datasets w),
     Raise TypeError).
Proof.
  intros Hpn Hpv Hsp Hdn Hc [Hm1 Hm2].
  unfold DataStore._serialize, call_method. rewrite Hm1, Hm2.
  unfold DataStore._get_metadata_dict.
  rewrite Hpn, Hpv, Hsp. simpl rbind.
  unfold bind, lift, create_meta, modify, DataStore._get_data_dict.
  destruct (__dict__ self) as [|[k v] rest] eqn:Ed.
  - unfold getattr in Hdn. rewrite Ed in Hdn. discriminate.
  - simpl. rewrite Hdn. simpl. now destruct data_names.
Qed.

End SerializationErrors.

Lemma serialize_data_names_not_container_witness :
  new_DataStore (VStr "flux") (VArr [VNum 0]) (VDict [("EJ", VNum 30)])
    [("data_names", VNone)]
  = Ok (mkObj DataStore_class
          [("param_name", VStr "flux"); ("param_vals", VArr [VNum 0]);
           ("system_params", VDict [("EJ", VNum 30)]);
           ("data_names", VNone)]) /\
  @DataStore._serialize misc_model
    (mkObj DataStore_class
       [("param_name", VStr "flux"); ("param_vals", VArr [VNum 0]);
        ("system_params", VDict [("EJ", VNum 30)]);
        ("data_names", VNone)]) new_writer
  = (mkWriter
       (Some [("param_name", VStr "flux"); ("param_vals", VArr [VNum 0]);
              ("EJ", VNum 30)]) [],
     Raise TypeError).
Proof.
  split; [reflexivity|].
  exact (@serialize_data_names_not_container misc_model
           (mkObj DataStore_class
              [("param_name", VStr "flux"); ("param_vals", VArr [VNum 0]);
               ("system_params", VDict [("EJ", VNum 30)]);
               ("data_names", VNone)]) new_writer
           (VStr "flux") (VArr [VNum 0]) [("EJ", VNum 30)] VNone
           eq_refl eq_refl eq_refl eq_refl eq_refl (conj eq_refl eq_refl)).
Defined.

(** ** Building from parts: results and errors *)

Lemma data_dict_of_names (name_list : list string) (data_list : list value) :
  data_dict_of (enumerate name_list) data_list []
  = if Nat.leb (List.length name_list) (List.length data_list)
    then Ok (dict_update [] (combine name_list data_list))
    else Raise IndexError.
Proof.
  exact (data_dict_of_run name_list data_list [] 0 [] eq_refl).
Qed.

(** Building a [DataStore] from parts is the direct construction with the
    zipped names and data as extra fields. *)
Lemma init_from_data_DataStore_run (metadata_dict : dict)
    (name_list : list string) (data_list : list value) (pn pv : value) :
  dict_get "param_name" metadata_dict = Some pn ->
  dict_get "param_vals" metadata_dict = Some pv ->
  NoDup name_list ->
  (List.length name_list <= List.length data_list)%nat ->
  _init_from_data DataStore_class metadata_dict name_list data_list
  = new_DataStore pn pv
      (VDict (dict_remove "param_vals"
                (dict_remove "param_name" metadata_dict)))
      (combine name_list data_list).
Proof.
  intros Hn Hv Hnd Hlen.
  unfold _init_from_data, dict_pop. rewrite Hn. simpl.
  rewrite dict_get_remove_neq by discriminate. rewrite Hv. simpl.
  rewrite data_dict_of_names.
  apply Nat.leb_le in Hlen. rewrite Hlen. simpl rbind.
  rewrite dict_update_fresh;
    [reflexivity | now apply NoDup_keys_combine | intros k _ []].
Qed.

(** X10.  From a triple with both metadata keys, distinct names none of
    which is a parameter of the constructor or a special name
    ([__dict__], [__class__], [__weakref__]), and data for every name,
    building a [DataStore] returns.  The new store has the metadata's
    [param_name] and [param_vals], the rest of the metadata as
    [system_params], every name bound to the data at its own position,
    and a [param_count] equal to the length of the file's [param_vals]. *)
Theorem init_from_data_DataStore_fields (metadata_dict : dict)
    (name_list : list string) (data_list : list value) (pn pv : value) :
  dict_get "param_name" metadata_dict = Some pn ->
  dict_get "param_vals" metadata_dict = Some pv ->
  NoDup name_list ->
  (List.length name_list <= List.length data_list)%nat ->
  (forall k, In k name_list -> ~ In k (parameter_names ++ special_names)) ->
  exists self,
    _init_from_data DataStore_class metadata_dict name_list data_list
    = Ok self /\
    ob_class self = DataStore_class /\
    getattr "param_name" self = Ok pn /\
    getattr "param_vals" self = Ok pv /\
    getattr "system_params" self
    = Ok (VDict (dict_remove "param_vals"
                   (dict_remove "param_name" metadata_dict))) /\
    (forall i name x,
       nth_error name_list i = Some name ->
       nth_error data_list i = Some x ->
       getattr name self = Ok x) /\
    (forall l, pv = VArr l ->
               DataStore.param_count self = Ok (Z.of_nat (List.length l))).
Proof.
  intros Hn Hv Hnd Hlen Hboth.
  assert (Hnames : forall k, In k name_list -> ~ In k parameter_names)
    by (intros k Hk Hin; apply (Hboth k Hk), in_or_app; now left).
  assert (Hord : forall k, In k name_list -> ~ In k special_names)
    by (intros k Hk Hin; apply (Hboth k Hk), in_or_app; now right).
  rewrite (init_from_data_DataStore_run _ _ _ pn pv Hn Hv Hnd Hlen).
  pose proof (keys_combine_all name_list data_list Hlen) as Hkeys.
  assert (Hok := new_DataStore_ok pn pv
                   (VDict (dict_remove "param_vals"
                             (dict_remove "param_name" metadata_dict)))
                   (combine name_list data_list)).
  rewrite Hkeys in Hok. specialize (Hok Hord Hnames).
  eexists. split; [exact Hok|].
  assert (Hkw : NoDup (keys (combine name_list data_list)))
    by now apply NoDup_keys_combine.
  assert (Hord' : forall k, In k (keys (combine name_list data_list)) ->
                            ~ In k special_names)
    by (rewrite Hkeys; exact Hord).
  pose proof (new_DataStore_getattr _ _ _ _ _ Hord' Hok Hkw) as Hget.
  assert (Hfixed : forall k, In k parameter_names ->
                             dict_get k (combine name_list data_list) = None).
  { intros k Hk. apply dict_get_None. rewrite Hkeys. intros Hin.
    now apply (Hnames k Hin). }
  assert (Hpv : getattr "param_vals"
                  (mkObj DataStore_class
                     (dict_update
                        [("param_name", pn); ("param_vals", pv);
                         ("system_params",
                          VDict (dict_remove "param_vals"
                                   (dict_remove "param_name" metadata_dict)));
                         ("data_names", VKeys name_list)]
                        (combine name_list data_list))) = Ok pv)
    by (rewrite Hget, Hfixed by (simpl; tauto); reflexivity).
  split; [reflexivity|]. split; [|split; [|split; [|split]]].
  - rewrite Hget, Hfixed by (simpl; tauto). reflexivity.
  - exact Hpv.
  - rewrite Hget, Hfixed by (simpl; tauto). reflexivity.
  - intros i name x Hi Hx. rewrite Hget.
    now rewrite (dict_get_combine_nth _ _ _ _ _ Hnd Hi Hx).
  - intros l ->. unfold DataStore.param_count. now rewrite Hpv.
Qed.

Lemma init_from_data_DataStore_fields_witness :
  exists self,
    _init_from_data DataStore_class example_metadata
      ["energy_table"; "data_names"] [example_table; VNum 7] = Ok self /\
    getattr "param_name" self = Ok (VStr "ng") /\
    getattr "energy_table" self = Ok example_table /\
    getattr "data_names" self = Ok (VNum 7) /\
    DataStore.param_count self = Ok 3%Z.
Proof.
  assert (Hnd : NoDup ["energy_table"; "data_names"]) by nodup_literal.
  assert (Hnames : forall k, In k ["energy_table"; "data_names"] ->
                             ~ In k (parameter_names ++ special_names)).
  { intros k [<-|[<-|[]]]; notin_literal. }
  destruct (init_from_data_DataStore_fields example_metadata
              ["energy_table"; "data_names"] [example_table; VNum 7]
              (VStr "ng") (VArr [VNum 0; VNum 1; VNum 2])
              eq_refl eq_refl Hnd (le_n 2) Hnames)
    as [self [Hrun [_ [Hpn [_ [_ [Hbound Hcount]]]]]]].
  exists self. split; [exact Hrun|]. split; [exact Hpn|].
  split; [|split].
  - exact (Hbound 0%nat "energy_table" example_table eq_refl eq_refl).
  - exact (Hbound 1%nat "data_names" (VNum 7) eq_refl eq_refl).
  - exact (Hcount [VNum 0; VNum 1; VNum 2] eq_refl).
Defined.

(** X11.  With both metadata keys present, building from parts raises
    [IndexError] when a name has no data, and [TypeError] when every name
    has data and one of them is a parameter name of the constructor
    ([self], [param_name], [param_vals], [system_params]); this holds for
    both classes, and no object is returned. *)
Theorem init_from_data_errors (cls : class) (metadata_dict : dict)
    (name_list : list string) (data_list : list value) (pn pv : value) :
  dict_get "param_name" metadata_dict = Some pn ->
  dict_get "param_vals" metadata_dict = Some pv ->
  ((List.length data_list < List.length name_list)%nat ->
   _init_from_data cls metadata_dict name_list data_list
   = Raise IndexError) /\
  ((List.length name_list <= List.length data_list)%nat ->
   (exists k, In k name_list /\ In k parameter_names) ->
   _init_from_data cls metadata_dict name_list data_list
   = Raise TypeError).
Proof.
  intros Hn Hv.
  unfold _init_from_data, dict_pop. rewrite Hn. simpl.
  rewrite dict_get_remove_neq by discriminate. rewrite Hv. simpl.
  rewrite data_dict_of_names. split.
  - intros Hlen. apply Nat.leb_gt in Hlen. now rewrite Hlen.
  - intros Hlen [k [Hk Hp]].
    pose proof (keys_combine_all name_list data_list Hlen) as Hkeys.
    apply Nat.leb_le in Hlen. rewrite Hlen. simpl rbind.
    set (dd := dict_update [] (combine name_list data_list)).
    assert (Hdd : In k (keys dd))
      by (apply In_keys_dict_update; right; now rewrite Hkeys).
    unfold merge_keywords.
    destruct (existsb _ (keys dd)) eqn:E; [reflexivity|].
    simpl rbind. unfold instantiate.
    assert (Hself : mem "self" (keys ([("param_name", pn);
                                       ("param_vals", pv);
                                       ("system_params",
                                        VDict (dict_remove "param_vals"
                                                 (dict_remove "param_name"
                                                    metadata_dict)))]
                                      ++ dd)) = true).
    { simpl in Hp. destruct Hp as [<-|Hp].
      - apply mem_In. unfold keys. rewrite map_app. apply in_or_app.
        now right.
      - exfalso.
        assert (existsb
                  (fun k0 => mem k0 (keys [("param_name", pn);
                                           ("param_vals", pv);
                                           ("system_params",
                                            VDict (dict_remove "param_vals"
                                                     (dict_remove "param_name"
                                                        metadata_dict)))]))
                  (keys dd) = true).
        { apply existsb_exists. exists k. split; [exact Hdd|].
          apply mem_In. simpl. tauto. }
        congruence. }
    simpl app in Hself. now rewrite Hself.
Qed.

Lemma init_from_data_errors_witness :
  _init_from_data DataStore_class example_metadata ["a"; "b"] [VNum 7]
  = Raise IndexError /\
  _init_from_data SpectrumData_class example_metadata
    ["energy_table"; "param_name"] [example_table; VStr "flux"]
  = Raise TypeError.
Proof.
  split.
  - exact (proj1 (init_from_data_errors DataStore_class example_metadata
                    ["a"; "b"] [VNum 7]
                    (VStr "ng") (VArr [VNum 0; VNum 1; VNum 2])
                    eq_refl eq_refl) (le_n 2)).
  - apply (proj2 (init_from_data_errors SpectrumData_class example_metadata
                    ["energy_table"; "param_name"]
                    [example_table; VStr "flux"]
                    (VStr "ng") (VArr [VNum 0; VNum 1; VNum 2])
                    eq_refl eq_refl) (le_n 2)).
    exists "param_name". split; simpl; tauto.
Defined.

(** ** Building a [SpectrumData] from parts *)

Lemma dict_remove_notin (k : string) (d : dict) :
  ~ In k (keys d) -> dict_remove k d = d.
Proof.
  induction d as [|[k' v'] d IH]; simpl; intros Hn.
  - reflexivity.
  - destruct (String.eqb_spec k k') as [->|Hne].
    + exfalso. apply Hn. now left.
    + f_equal. apply IH. intros Hi. apply Hn. now right.
Qed.

Lemma In_keys_dict_remove (k k' : string) (d : dict) :
  In k (keys d) -> k <> k' -> In k (keys (dict_remove k' d)).
Proof.
  intros Hin Hne. induction d as [|[k0 v0] d IH]; simpl in *; [tauto|].
  destruct (String.eqb_spec k' k0) as [->|Hne0]; simpl.
  - destruct Hin as [He|Hin]; [congruence | assumption].
  - destruct Hin as [He|Hin]; [now left | right; now apply IH].
Qed.

Lemma optional_snd (k : string) (default : value) (kw : dict) :
  snd (optional k default kw) = dict_remove k kw.
Proof.
  unfold optional. destruct (dict_get k kw) eqn:E; simpl.
  - reflexivity.
  - symmetry. apply dict_remove_notin. now apply dict_get_None.
Qed.

Lemma optional_fst (k : string) (default : value) (kw : dict) :
  fst (optional k default kw)
  = match dict_get k kw with
    | Some v => v
    | None => default
    end.
Proof. unfold optional. now destruct (dict_get k kw). Qed.

(** The keywords left once the three tables are taken out. *)
Definition other_keywords (dd : dict) : dict :=
  dict_remove "matrixelem_table"
    (dict_remove "state_table" (dict_remove "energy_table" dd)).

(** What the call of [SpectrumData] does with the keywords of
    [_init_from_data]. *)
Lemma instantiate_SpectrumData_run (pn pv sp : value) (dd : dict) :
  mem "self" (keys dd) = false ->
  instantiate SpectrumData_class
    ([("param_name", pn); ("param_vals", pv); ("system_params", sp)] ++ dd)
  = match dict_get "energy_table" dd with
    | None => Raise TypeError
    | Some et =>
        match other_keywords dd with
        | [] =>
            initialized SpectrumData_class
              (SpectrumData.__init__ pn pv et sp
                 (match dict_get "state_table" dd with
                  | Some v => v
                  | None => VNone
                  end)
                 (match dict_get "matrixelem_table" dd with
                  | Some v => v
                  | None => VNone
                  end))
        | _ :: _ => Raise TypeError
        end
    end.
Proof.
  intros Hself. unfold instantiate. simpl app.
  assert (Hs : mem "self" (keys (("param_name", pn) :: ("param_vals", pv)
                                 :: ("system_params", sp) :: dd)) = false)
    by (simpl; exact Hself).
  rewrite Hs. unfold required. simpl.
  destruct (dict_get "energy_table" dd) as [et|]; simpl; [|reflexivity].
  rewrite !optional_snd, !optional_fst.
  rewrite !dict_get_remove_neq by discriminate.
  reflexivity.
Qed.

Lemma merge_then_instantiate_SpectrumData (pn pv sp : value) (dd : dict) :
  rbind (merge_keywords [("param_name", pn); ("param_vals", pv);
                         ("system_params", sp)] dd)
        (instantiate SpectrumData_class)
  = Raise TypeError \/
  rbind (merge_keywords [("param_name", pn); ("param_vals", pv);
                         ("system_params", sp)] dd)
        (instantiate SpectrumData_class)
  = match dict_get "energy_table" dd with
    | None => Raise TypeError
    | Some et =>
        match other_keywords dd with
        | [] =>
            initialized SpectrumData_class
              (SpectrumData.__init__ pn pv et sp
                 (match dict_get "state_table" dd with
                  | Some v => v
                  | None => VNone
                  end)
                 (match dict_get "matrixelem_table" dd with
                  | Some v => v
                  | None => VNone
                  end))
        | _ :: _ => Raise TypeError
        end
    end.
Proof.
  unfold merge_keywords.
  destruct (existsb _ (keys dd)); [now left|]. simpl rbind.
  destruct (mem "self" (keys dd)) eqn:Hself.
  - left. unfold instantiate. simpl app.
    assert (Hs : mem "self" (keys (("param_name", pn) :: ("param_vals", pv)
                                   :: ("system_params", sp) :: dd)) = true)
      by (simpl; exact Hself).
    now rewrite Hs.
  - right. now apply instantiate_SpectrumData_run.
Qed.

(** X12.  With both metadata keys present and data for every name,
    building a [SpectrumData] from parts raises [TypeError] when no
    dataset is named [energy_table], and also when some dataset bears a
    name other than [energy_table], [state_table] and
    [matrixelem_table]. *)
Theorem init_from_data_SpectrumData_rejects (metadata_dict : dict)
    (name_list : list string) (data_list : list value) (pn pv : value) :
  dict_get "param_name" metadata_dict = Some pn ->
  dict_get "param_vals" metadata_dict = Some pv ->
  (List.length name_list <= List.length data_list)%nat ->
  ~ In "energy_table" name_list \/
  (exists k, In k name_list /\
             ~ In k ["energy_table"; "state_table"; "matrixelem_table"]) ->
  _init_from_data SpectrumData_class metadata_dict name_list data_list
  = Raise TypeError.
Proof.
  intros Hn Hv Hlen Hbad.
  unfold _init_from_data, dict_pop. rewrite Hn. simpl.
  rewrite dict_get_remove_neq by discriminate. rewrite Hv. simpl.
  rewrite data_dict_of_names.
  pose proof (keys_combine_all name_list data_list Hlen) as Hkeys.
  apply Nat.leb_le in Hlen. rewrite Hlen. simpl rbind.
  set (dd := dict_update [] (combine name_list data_list)).
  assert (Hdd : forall k, In k (keys dd) <-> In k name_list).
  { intros k. unfold dd. rewrite In_keys_dict_update, Hkeys. simpl. tauto. }
  destruct (merge_then_instantiate_SpectrumData pn pv
              (VDict (dict_remove "param_vals"
                        (dict_remove "param_name" metadata_dict))) dd)
    as [Herr|Hrun]; [exact Herr|].
  rewrite Hrun. destruct Hbad as [Hno|[k [Hk Hother]]].
  - assert (Hnone : dict_get "energy_table" dd = None)
      by (apply dict_get_None; now rewrite Hdd).
    now rewrite Hnone.
  - destruct (dict_get "energy_table" dd); [|reflexivity].
    assert (Hleft : In k (keys (other_keywords dd))).
    { unfold other_keywords.
      repeat apply In_keys_dict_remove;
        try (now apply Hdd);
        intros ->; apply Hother; simpl; tauto. }
    destruct (other_keywords dd); [contradiction | reflexivity].
Qed.

Lemma init_from_data_SpectrumData_rejects_witness :
  _init_from_data SpectrumData_class example_metadata [] []
  = Raise TypeError /\
  _init_from_data SpectrumData_class example_metadata
    ["energy_table"; "a"] [example_table; VNum 7]
  = Raise TypeError.
Proof.
  split.
  - apply (init_from_data_SpectrumData_rejects example_metadata [] []
             (VStr "ng") (VArr [VNum 0; VNum 1; VNum 2])
             eq_refl eq_refl (le_n 0)).
    left. intros [].
  - apply (init_from_data_SpectrumData_rejects example_metadata
             ["energy_table"; "a"] [example_table; VNum 7]
             (VStr "ng") (VArr [VNum 0; VNum 1; VNum 2])
             eq_refl eq_refl (le_n 2)).
    right. exists "a". split; [simpl; tauto | notin_literal].
Defined.

Lemma other_keywords_nil (dd : dict) :
  NoDup (keys dd) ->
  (forall k, In k (keys dd) ->
             In k ["energy_table"; "state_table"; "matrixelem_table"]) ->
  other_keywords dd = [].
Proof.
  intros Hnd Hall.
  assert (Hnd1 : NoDup (keys (dict_remove "energy_table" dd)))
    by now apply NoDup_keys_dict_remove.
  assert (Hnd2 : NoDup (keys (dict_remove "state_table"
                                (dict_remove "energy_table" dd))))
    by now apply NoDup_keys_dict_remove.
  destruct (other_keywords dd) as [|[k v] rest] eqn:E; [reflexivity|].
  exfalso.
  assert (Hk : In k (keys (other_keywords dd))) by (rewrite E; now left).
  assert (Hget : dict_get k (other_keywords dd) = Some v)
    by (rewrite E; simpl; now rewrite String.eqb_refl).
  unfold other_keywords in Hk, Hget.
  assert (Hin : In k (keys dd))
    by (now apply keys_dict_remove, keys_dict_remove, keys_dict_remove in Hk).
  apply Hall in Hin. simpl in Hin.
  destruct Hin as [<-|[<-|[<-|[]]]].
  - rewrite !dict_get_remove_neq in Hget by discriminate.
    rewrite dict_get_remove_eq in Hget by assumption. discriminate.
  - rewrite dict_get_remove_neq in Hget by discriminate.
    rewrite dict_get_remove_eq in Hget by assumption. discriminate.
  - rewrite dict_get_remove_eq in Hget by assumption. discriminate.
Qed.

(** X13.  From a triple with both metadata keys and distinct names taken
    among [energy_table], [state_table] and [matrixelem_table],
    [energy_table] among them, each with data, building a [SpectrumData]
    returns: the instance has the parameters of the metadata, every named
    table bound to the data at its position, [None] for an optional table
    the file does not name, and an empty [data_names]. *)
Theorem init_from_data_SpectrumData_fields (metadata_dict : dict)
    (name_list : list string) (data_list : list value) (pn pv : value) :
  dict_get "param_name" metadata_dict = Some pn ->
  dict_get "param_vals" metadata_dict = Some pv ->
  NoDup name_list ->
  (List.length name_list <= List.length data_list)%nat ->
  In "energy_table" name_list ->
  (forall k, In k name_list ->
             In k ["energy_table"; "state_table"; "matrixelem_table"]) ->
  exists self,
    _init_from_data SpectrumData_class metadata_dict name_list data_list
    = Ok self /\
    ob_class self = SpectrumData_class /\
    getattr "param_name" self = Ok pn /\
    getattr "param_vals" self = Ok pv /\
    getattr "system_params" self
    = Ok (VDict (dict_remove "param_vals"
                   (dict_remove "param_name" metadata_dict))) /\
    getattr "data_names" self = Ok (VKeys []) /\
    (forall i name x,
       nth_error name_list i = Some name ->
       nth_error data_list i = Some x ->
       getattr name self = Ok x) /\
    (~ In "state_table" name_list -> getattr "state_table" self = Ok VNone) /\
    (~ In "matrixelem_table" name_list ->
     getattr "matrixelem_table" self = Ok VNone).
Proof.
  intros Hn Hv Hnd Hlen Het Hall.
  unfold _init_from_data, dict_pop. rewrite Hn. simpl.
  rewrite dict_get_remove_neq by discriminate. rewrite Hv. simpl.
  rewrite data_dict_of_names.
  pose proof (keys_combine_all name_list data_list Hlen) as Hkeys.
  pose proof (NoDup_keys_combine name_list data_list Hnd) as Hndd.
  apply Nat.leb_le in Hlen. rewrite Hlen. simpl rbind.
  rewrite dict_update_fresh; [|assumption | intros k _ []]. simpl app.
  set (dd := combine name_list data_list) in *.
  rewrite merge_keywords_ok.
  2:{ intros k Hk Hin. rewrite Hkeys in Hk. apply Hall in Hk.
      simpl in Hk, Hin.
      destruct Hk as [<-|[<-|[<-|[]]]];
        repeat (destruct Hin as [Hin|Hin]; try discriminate); exact Hin. }
  cbn [rbind]. rewrite instantiate_SpectrumData_run.
  2:{ apply mem_false. rewrite Hkeys. intros Hin. apply Hall in Hin.
      simpl in Hin.
      repeat (destruct Hin as [Hin|Hin]; try discriminate); exact Hin. }
  destruct (dict_get "energy_table" dd) as [et|] eqn:Eet.
  2:{ exfalso. apply dict_get_None in Eet. apply Eet. now rewrite Hkeys. }
  rewrite other_keywords_nil by (try assumption; now rewrite Hkeys).
  eexists. split; [reflexivity|].
  split; [reflexivity|]. split; [reflexivity|]. split; [reflexivity|].
  split; [reflexivity|]. split; [reflexivity|].
  split; [|split].
  - intros i name x Hi Hx.
    pose proof (dict_get_combine_nth _ _ _ _ _ Hnd Hi Hx) as Hget.
    fold dd in Hget.
    apply nth_error_In in Hi. apply Hall in Hi. simpl in Hi.
    destruct Hi as [<-|[<-|[<-|[]]]]; unfold getattr; simpl.
    + congruence.
    + now rewrite Hget.
    + now rewrite Hget.
  - intros Hno. unfold getattr. simpl.
    assert (Hnone : dict_get "state_table" dd = None)
      by (apply dict_get_None; now rewrite Hkeys).
    now rewrite Hnone.
  - intros Hno. unfold getattr. simpl.
    assert (Hnone : dict_get "matrixelem_table" dd = None)
      by (apply dict_get_None; now rewrite Hkeys).
    now rewrite Hnone.
Qed.

Lemma init_from_data_SpectrumData_fields_witness :
  exists self,
    _init_from_data SpectrumData_class example_metadata
      ["state_table"; "energy_table"] [VNum 7; example_table] = Ok self /\
    getattr "energy_table" self = Ok example_table /\
    getattr "state_table" self = Ok (VNum 7) /\
    getattr "matrixelem_table" self = Ok VNone /\
    getattr "data_names" self = Ok (VKeys []).
Proof.
  assert (Hnd : NoDup ["state_table"; "energy_table"]) by nodup_literal.
  assert (Het : In "energy_table" ["state_table"; "energy_table"])
    by (simpl; tauto).
  assert (Hall : forall k, In k ["state_table"; "energy_table"] ->
                   In k ["energy_table"; "state_table"; "matrixelem_table"])
    by (simpl; tauto).
  assert (Hmt : ~ In "matrixelem_table" ["state_table"; "energy_table"])
    by notin_literal.
  destruct (init_from_data_SpectrumData_fields example_metadata
              ["state_table"; "energy_table"] [VNum 7; example_table]
              (VStr "ng") (VArr [VNum 0; VNum 1; VNum 2])
              eq_refl eq_refl Hnd (le_n 2) Het Hall)
    as [self [Hrun [_ [_ [_ [_ [Hdn [Hbound [_ Hnone]]]]]]]]].
  exists self. split; [exact Hrun|]. split; [|split; [|split]].
  - exact (Hbound 1%nat "energy_table" example_table eq_refl eq_refl).
  - exact (Hbound 0%nat "state_table" (VNum 7) eq_refl eq_refl).
  - exact (Hnone Hmt).
  - exact Hdn.
Defined.

Section SpectrumRoundTrip.
Context `{Misc}.

(** X14.  A [SpectrumData] written to a file cannot be built again from
    it: its serialization returns and holds the metadata record and no
    dataset, and building a [SpectrumData] from what the reader gives
    back raises [TypeError], the required [energy_table] being absent. *)
Theorem SpectrumData_serialize_then_init_raises
    (param_name param_vals energy_table : value) (system_params : dict)
    (state_table matrixelem_table : value) :
  exists self w metadata_dict,
    initialized SpectrumData_class
      (SpectrumData.__init__ param_name param_vals energy_table
         (VDict system_params) state_table matrixelem_table) = Ok self /\
    DataStore._serialize self new_writer = (w, Ok tt) /\
    read w = Ok (metadata_dict, [], []) /\
    _init_from_data SpectrumData_class metadata_dict [] []
    = Raise TypeError.
Proof.
  do 3 eexists. split; [reflexivity|]. split; [reflexivity|].
  split; [reflexivity|].
  set (m := dict_update [("param_name", param_name);
                         ("param_vals", param_vals)]
              (process_metadata system_params)).
  assert (Hkeep : forall k, In k ["param_name"; "param_vals"] ->
                            exists v, dict_get k m = Some v).
  { intros k Hk. destruct (dict_get k m) as [v|] eqn:E; [now exists v|].
    apply dict_get_None in E. exfalso. apply E.
    apply In_keys_dict_update. now left. }
  destruct (Hkeep "param_name") as [pn Hpn]; [simpl; tauto|].
  destruct (Hkeep "param_vals") as [pv Hpv]; [simpl; tauto|].
  unfold _init_from_data, dict_pop. rewrite Hpn. simpl.
  rewrite dict_get_remove_neq by discriminate. rewrite Hpv. reflexivity.
Qed.

End SpectrumRoundTrip.

(** ** Ground-state subtraction on tables of any size *)

Lemma numbers_map_VNum (r : list Z) : numbers (map VNum r) = Some r.
Proof.
  induction r as [|x r IH]; simpl; [reflexivity | now rewrite IH].
Qed.

Lemma rows_of_np_rows (rows : list (list Z)) :
  rows_of (map (fun r => VArr (map VNum r)) rows) = Some rows.
Proof.
  induction rows as [|r rows IH]; simpl; [reflexivity|].
  now rewrite numbers_map_VNum, IH.
Qed.

Lemma np_matrix_np_value (rows : list (list Z)) :
  rows <> [] -> uniform rows = true -> np_matrix (np_value rows) = Ok rows.
Proof.
  intros Hne Hu. destruct rows as [|r rows]; [contradiction|].
  unfold np_value. simpl map. unfold np_matrix.
  change (rows_of (VArr (map VNum r)
                   :: map (fun r0 => VArr (map VNum r0)) rows))
    with (rows_of (map (fun r0 => VArr (map VNum r0)) (r :: rows))).
  now rewrite rows_of_np_rows, Hu.
Qed.

Lemma np_column0_nonempty (rows : list (list Z)) :
  (forall r, In r rows -> r <> []) ->
  np_column0 rows = Ok (map (hd 0%Z) rows).
Proof.
  induction rows as [|r rows IH]; simpl; intros Hall; [reflexivity|].
  destruct r as [|x r]; [now destruct (Hall [] (or_introl eq_refl))|].
  rewrite IH by (intros r' Hr'; apply Hall; now right). reflexivity.
Qed.

Lemma uniform_lengths (r : list Z) (rows : list (list Z)) :
  uniform (r :: rows) = true ->
  forall r', In r' (r :: rows) -> List.length r' = List.length r.
Proof.
  simpl. intros Hu r' [<-|Hin]; [reflexivity|].
  rewrite forallb_forall in Hu. apply Nat.eqb_eq. now apply Hu.
Qed.

(** [subtract_ground] on a store whose [energy_table] is a proper
    two-dimensional array. *)
Lemma subtract_ground_run (self : obj) (rows : list (list Z)) :
  getattr "energy_table" self = Ok (np_value rows) ->
  rows <> [] ->
  uniform rows = true ->
  SpectrumData.subtract_ground self
  = match np_column0 rows with
    | Raise e => (self, Raise e)
    | Ok ground =>
        match np_isub rows ground with
        | Raise e => (self, Raise e)
        | Ok rows' =>
            (mkObj (ob_class self)
               (dict_set "energy_table" (np_value rows') (__dict__ self)),
             Ok tt)
        end
    end.
Proof.
  intros Het Hne Hu. unfold SpectrumData.subtract_ground, bind, attr, lift.
  rewrite Het. rewrite (np_matrix_np_value rows Hne Hu).
  destruct (np_column0 rows) as [c|e]; [|reflexivity].
  destruct (np_isub rows c) as [a'|e]; reflexivity.
Qed.

(** X15.  On a table of n rows and m columns, with m at least 1 and n
    different from both 1 and m, [subtract_ground] raises [ValueError]
    and leaves the store as it was: the column of ground energies, of
    shape (n,), does not broadcast against the rows. *)
Theorem subtract_ground_shape_mismatch (self : obj) (r : list Z)
    (rows : list (list Z)) :
  getattr "energy_table" self = Ok (np_value (r :: rows)) ->
  uniform (r :: rows) = true ->
  r <> [] ->
  rows <> [] ->
  List.length (r :: rows) <> List.length r ->
  SpectrumData.subtract_ground self = (self, Raise ValueError).
Proof.
  intros Het Hu Hr Hrows Hnm.
  rewrite (subtract_ground_run self (r :: rows) Het) by (discriminate || exact Hu).
  assert (Hc : np_column0 (r :: rows) = Ok (map (hd 0%Z) (r :: rows))).
  { apply np_column0_nonempty. intros r' Hin ->.
    apply (uniform_lengths r rows Hu) in Hin. destruct r; [contradiction|].
    discriminate. }
  rewrite Hc.
  now rewrite (np_isub_column0_mismatch r rows _ Hc Hnm Hrows).
Qed.

Lemma subtract_ground_shape_mismatch_witness :
  SpectrumData.subtract_ground
    (example_spectrum (np_value [[1; 2]; [4; 5]; [7; 9]]%Z))
  = (example_spectrum (np_value [[1; 2]; [4; 5]; [7; 9]]%Z),
     Raise ValueError).
Proof.
  apply (subtract_ground_shape_mismatch
           (example_spectrum (np_value [[1; 2]; [4; 5]; [7; 9]]%Z))
           [1; 2]%Z [[4; 5]; [7; 9]]%Z).
  - reflexivity.
  - reflexivity.
  - discriminate.
  - discriminate.
  - simpl. lia.
Defined.

Lemma wrap64_int64 (z : Z) : int64 (wrap64 z) = true.
Proof.
  unfold int64, wrap64.
  pose proof (Z.mod_pos_bound (z + 2 ^ 63) (2 ^ 64) eq_refl) as Hb.
  apply andb_true_intro. split; [apply Z.leb_le | apply Z.ltb_lt]; lia.
Qed.

Lemma wrap64_id (z : Z) : int64 z = true -> wrap64 z = z.
Proof.
  unfold int64, wrap64. intros Hz. apply andb_prop in Hz.
  destruct Hz as [Hlo Hhi]. apply Z.leb_le in Hlo. apply Z.ltb_lt in Hhi.
  rewrite Z.mod_small by lia. lia.
Qed.

Lemma forallb_int64_wrapped (f : Z -> Z) (r : list Z) :
  forallb int64 (map (fun y => wrap64 (f y)) r) = true.
Proof.
  induction r as [|y r IH]; simpl; [reflexivity|].
  now rewrite wrap64_int64, IH.
Qed.

(** X16.  On a table of a single row of 64-bit integers,
    [subtract_ground] returns and the row has lost its first entry in
    64-bit arithmetic: the ground energy becomes 0 and every other level
    the difference to it, wrapped around; the difference itself where it
    fits in 64 bits.  Running it a second time changes nothing. *)
Theorem subtract_ground_single_row (self : obj) (x : Z) (r : list Z) :
  getattr "energy_table" self = Ok (np_value [x :: r]) ->
  forallb int64 (x :: r) = true ->
  exists self',
    SpectrumData.subtract_ground self = (self', Ok tt) /\
    getattr "energy_table" self'
    = Ok (np_value [0%Z :: map (fun y => wrap64 (y - x)) r]) /\
    ((forall y, In y r -> int64 (y - x) = true) ->
     getattr "energy_table" self'
     = Ok (np_value [0%Z :: map (fun y => (y - x)%Z) r])) /\
    SpectrumData.subtract_ground self' = (self', Ok tt).
Proof.
  intros Het Hr.
  assert (Hfirst : SpectrumData.subtract_ground self
                   = (mkObj (ob_class self)
                        (dict_set "energy_table"
                           (np_value [0%Z :: map (fun y => wrap64 (y - x)) r])
                           (__dict__ self)), Ok tt)).
  { rewrite (subtract_ground_run self [x :: r] Het)
      by (discriminate || reflexivity).
    destruct (np_isub_single_row x r Hr) as [-> ->].
    simpl map. now rewrite Z.sub_diag. }
  eexists. split; [exact Hfirst|].
  assert (Hget : getattr "energy_table"
                   (mkObj (ob_class self)
                      (dict_set "energy_table"
                         (np_value [0%Z :: map (fun y => wrap64 (y - x)) r])
                         (__dict__ self)))
                 = Ok (np_value [0%Z :: map (fun y => wrap64 (y - x)) r]))
    by (unfold getattr; simpl __dict__; now rewrite dict_get_set_eq).
  split; [exact Hget|]. split.
  - intros Hfit. rewrite Hget.
    replace (map (fun y => wrap64 (y - x)) r)
      with (map (fun y => (y - x)%Z) r); [reflexivity|].
    apply map_ext_in. intros y Hy. symmetry. apply wrap64_id.
    now apply Hfit.
  - assert (Hr' : forallb int64 (0%Z :: map (fun y => wrap64 (y - x)) r)
                  = true)
      by (simpl forallb at 1; now rewrite forallb_int64_wrapped).
    rewrite (subtract_ground_run _ [0%Z :: map (fun y => wrap64 (y - x)) r]
               Hget)
      by (discriminate || reflexivity).
    destruct (np_isub_single_row 0%Z (map (fun y => wrap64 (y - x)) r) Hr')
      as [-> ->].
    simpl ob_class. simpl __dict__. f_equal. f_equal.
    replace (map (fun y => wrap64 (y - 0))
               (0%Z :: map (fun y => wrap64 (y - x)) r))
      with (0%Z :: map (fun y => wrap64 (y - x)) r).
    + apply dict_set_same. apply dict_get_set_eq.
    + symmetry. apply map_id_on. intros y Hy. rewrite Z.sub_0_r.
      apply wrap64_id. rewrite forallb_forall in Hr'. now apply Hr'.
Qed.

Lemma subtract_ground_single_row_witness :
  exists self',
    SpectrumData.subtract_ground
      (example_spectrum (np_value [[3; 5; 9]]%Z)) = (self', Ok tt) /\
    getattr "energy_table" self' = Ok (np_value [[0; 2; 6]]%Z) /\
    SpectrumData.subtract_ground self' = (self', Ok tt).
Proof.
  destruct (subtract_ground_single_row
              (example_spectrum (np_value [[3; 5; 9]]%Z)) 3%Z [5; 9]%Z
              eq_refl eq_refl) as [self' [Hrun [Htable [_ Hagain]]]].
  exists self'. split; [exact Hrun|]. split; [exact Htable | exact Hagain].
Defined.

Lemma nth_sub_rows (r : list Z) :
  forall (b : list Z) (j : nat),
    (j < List.length r)%nat -> (j < List.length b)%nat ->
    nth j (sub_rows r b) 0%Z = wrap64 (nth j r 0%Z - nth j b 0%Z).
Proof.
  induction r as [|x r IH]; intros b j Hr Hb; simpl in Hr; [lia|].
  destruct b as [|y b]; simpl in Hb; [lia|].
  destruct j as [|j]; simpl; [reflexivity|].
  apply IH; lia.
Qed.

Lemma forallb_int64_column0 (rows : list (list Z)) :
  forallb (forallb int64) rows = true ->
  forallb int64 (map (hd 0%Z) rows) = true.
Proof.
  induction rows as [|r rows IH]; simpl; intros Hall; [reflexivity|].
  apply andb_prop in Hall. destruct Hall as [Hr Hrows].
  rewrite (IH Hrows), andb_true_r.
  destruct r as [|x r]; [reflexivity|].
  simpl in Hr. apply andb_prop in Hr. exact (proj1 Hr).
Qed.

(** X17.  On a square table of n rows and n columns of 64-bit integers,
    [subtract_ground] returns, and the entry of row i and column j has
    lost, in 64-bit arithmetic, the first entry of row j, not of row i:
    sweep point i is shifted by the ground energies of the other sweep
    points.  Only its first column, [a[i][0] - a[0][0]], and its first
    row are shifted by the ground energy of the first sweep point. *)
Theorem subtract_ground_square (self : obj) (rows : list (list Z)) :
  getattr "energy_table" self = Ok (np_value rows) ->
  rows <> [] ->
  (forall r, In r rows -> List.length r = List.length rows) ->
  forallb (forallb int64) rows = true ->
  exists rows',
    SpectrumData.subtract_ground self
    = (mkObj (ob_class self)
         (dict_set "energy_table" (np_value rows') (__dict__ self)),
       Ok tt) /\
    List.length rows' = List.length rows /\
    forall i j,
      (i < List.length rows)%nat -> (j < List.length rows)%nat ->
      nth j (nth i rows' []) 0%Z
      = wrap64 (nth j (nth i rows []) 0%Z - nth 0 (nth j rows []) 0%Z).
Proof.
  intros Het Hne Hsq Hint.
  assert (Hu : uniform rows = true).
  { destruct rows as [|r rows]; [reflexivity|]. simpl.
    apply forallb_forall. intros r' Hr'. apply Nat.eqb_eq.
    rewrite (Hsq r') by now right. symmetry. apply Hsq. now left. }
  assert (Hc : np_column0 rows = Ok (map (hd 0%Z) rows)).
  { apply np_column0_nonempty. intros r Hr ->.
    apply Hsq in Hr. destruct rows; [contradiction | discriminate]. }
  assert (Hm : match rows with
               | [] => 0%nat
               | r :: _ => List.length r
               end = List.length rows).
  { destruct rows as [|r rows]; [reflexivity|]. apply Hsq. now left. }
  exists (map (fun r => sub_rows r (map (hd 0%Z) rows)) rows).
  split; [|split].
  - rewrite (subtract_ground_run self rows Het Hne Hu), Hc.
    unfold np_isub. rewrite Hm, length_map, Nat.eqb_refl.
    rewrite (on_int64_ok _ _ _ Hint (forallb_int64_column0 rows Hint)).
    reflexivity.
  - apply length_map.
  - intros i j Hi Hj.
    change (@nil Z) with (sub_rows [] (map (hd 0%Z) rows)) at 1.
    rewrite (map_nth (fun r => sub_rows r (map (hd 0%Z) rows))).
    assert (Hrow : List.length (nth i rows []) = List.length rows)
      by (apply Hsq, nth_In; exact Hi).
    rewrite nth_sub_rows by (rewrite ?Hrow, ?length_map; exact Hj).
    do 2 f_equal.
    transitivity (hd 0%Z (nth j rows [])).
    + exact (map_nth (hd 0%Z) rows [] j).
    + now destruct (nth j rows []).
Qed.

Lemma subtract_ground_square_witness :
  exists rows',
    SpectrumData.subtract_ground (example_spectrum square_table)
    = (example_spectrum (np_value rows'), Ok tt) /\
    nth 1 (nth 0 rows' []) 0%Z = (2 - 4)%Z /\
    nth 0 (nth 1 rows' []) 0%Z = (4 - 1)%Z.
Proof.
  destruct (subtract_ground_square (example_spectrum square_table)
              [[1; 2]; [4; 6]]%Z eq_refl) as [rows' [Hrun [_ Hentry]]].
  - discriminate.
  - intros r [<-|[<-|[]]]; reflexivity.
  - reflexivity.
  - exists rows'. split; [exact Hrun|]. split.
    + exact (Hentry 0%nat 1%nat (le_S _ _ (le_n 1)) (le_n 2)).
    + exact (Hentry 1%nat 0%nat (le_n 2) (le_S _ _ (le_n 1))).
Defined.

(** X18.  [subtract_ground] writes nothing but [energy_table]: the class
    and every other attribute of the store are as before, and a call
    that raises (no [energy_table], a table that is not two-dimensional,
    an empty row, shapes that do not broadcast) leaves the store exactly
    as it was. *)
Theorem subtract_ground_frame (self : obj) :
  ob_class (fst (SpectrumData.subtract_ground self)) = ob_class self /\
  (forall k, k <> "energy_table" ->
             getattr k (fst (SpectrumData.subtract_ground self))
             = getattr k self) /\
  (forall e, snd (SpectrumData.subtract_ground self) = Raise e ->
             fst (SpectrumData.subtract_ground self) = self).
Proof.
  unfold SpectrumData.subtract_ground, bind, attr, lift.
  destruct (getattr "energy_table" self) as [et|e0];
    [|repeat split; reflexivity].
  destruct (np_matrix et) as [a|e0]; [|repeat split; reflexivity].
  destruct (np_column0 a) as [c|e0]; [|repeat split; reflexivity].
  destruct (np_isub a c) as [a'|e0]; [|repeat split; reflexivity].
  simpl. split; [reflexivity|]. split.
  - intros k Hk. unfold getattr. simpl.
    now rewrite dict_get_set_neq by assumption.
  - discriminate.
Qed.

Lemma subtract_ground_frame_witness :
  getattr "param_vals"
    (fst (SpectrumData.subtract_ground (example_spectrum square_table)))
  = Ok (VArr [VNum 0; VNum 1]) /\
  fst (SpectrumData.subtract_ground (example_spectrum example_table))
  = example_spectrum example_table.
Proof.
  split.
  - rewrite (proj1 (proj2 (subtract_ground_frame
                             (example_spectrum square_table))))
      by discriminate.
    reflexivity.
  - exact (proj2 (proj2 (subtract_ground_frame
                           (example_spectrum example_table)))
             ValueError eq_refl).
Defined.

(** ** Round trip of a store with absent fields *)

Section AbsentFields.
Context `{Misc}.


End AbsentFields.

